(** * x402 facilitator: the /verify, /settle and /supported handlers

    A shallow embedding of [x402-facilitator/src/server.ts].  The Express
    handlers are written as programs of a small trace-and-exception
    monad: the trace records, in order, every call a handler makes to code
    outside itself (the console, [Buffer.from], the two web3.js parsers,
    [parseFloat] and the Kora relay client), and a computation either
    completes normally or throws.

    Conventions of the model.
    - A JavaScript string is a Rocq [string]; each [ascii] stands for one
      code unit below 256.
    - A JavaScript number is a binary64 value, [spec_float] of the Standard
      Library with precision 53 and maximal exponent 1024.
    - A request body has the shape its interface [X402PaymentPayload]
      declares, except that [transaction] and [metadata] may be absent:
      these are the two absences the handlers test for.
    - [KoraClient] (declared in [koraClient.ts]) and the web3.js parsers are
      collaborators: their behaviour is a field of the [World] a handler
      runs in.  The relay client's methods are asynchronous: each returns a
      promise that is fulfilled or rejected with an [Error]. *)

From Stdlib Require Import ZArith List String Ascii Bool Lia.
From Stdlib Require Import Floats.SpecFloat.
From Stdlib Require Import NArith DecimalString.
Import ListNotations.
Local Open Scope string_scope.
Local Open Scope Z_scope.

(** ** JavaScript numbers and [parseFloat] *)

Module JS.

Definition number := spec_float.

Definition prec : Z := 53.
Definition emax : Z := 1024.

Definition zero : number := S754_zero false.

(** [isNaN x] on a value that already is a number. *)
Definition isNaN (x : number) : bool :=
  match x with
  | S754_nan => true
  | _ => false
  end.

(** [x <= y] of JavaScript: false as soon as one side is NaN. *)
Definition le (x y : number) : bool := SFleb x y.

(** [x > y] of JavaScript. *)
Definition gt (x y : number) : bool := SFltb y x.

(** [Number.isFinite x]. *)
Definition isFinite (x : number) : bool :=
  match x with
  | S754_zero _ | S754_finite _ _ _ => true
  | S754_infinity _ | S754_nan => false
  end.

Definition code (c : ascii) : Z := Z.of_N (N_of_ascii c).

(** StrWhiteSpaceChar, restricted to the code units below 256: TAB, LF, VT,
    FF, CR, SP and NBSP. *)
Definition isWhiteSpace (c : ascii) : bool :=
  let n := code c in
  ((9 <=? n) && (n <=? 13)) || (n =? 32) || (n =? 160).

Definition isDigit (c : ascii) : bool :=
  let n := code c in (48 <=? n) && (n <=? 57).

Fixpoint trimStart (s : string) : string :=
  match s with
  | String c r => if isWhiteSpace c then trimStart r else s
  | EmptyString => s
  end.

(** The longest run of decimal digits at the head of [s], and the rest. *)
Fixpoint spanDigits (s : string) : string * string :=
  match s with
  | String c r =>
      if isDigit c
      then let '(ds, rest) := spanDigits r in (String c ds, rest)
      else (EmptyString, s)
  | EmptyString => (EmptyString, EmptyString)
  end.

(** The mathematical value of a run of decimal digits, left to right. *)
Fixpoint digitsValue (acc : Z) (ds : string) : Z :=
  match ds with
  | String c r => digitsValue (10 * acc + (code c - 48)) r
  | EmptyString => acc
  end.

(** [startsWith p s]: when [s] begins with [p], what follows [p]. *)
Fixpoint startsWith (p s : string) : option string :=
  match p, s with
  | EmptyString, _ => Some s
  | String a p', String b s' =>
      if Ascii.eqb a b then startsWith p' s' else None
  | String _ _, EmptyString => None
  end.

(** The result of reading the longest prefix that is a
    StrUnsignedDecimalLiteral: [Infinity], or a decimal with mantissa [m]
    and decimal exponent [e], standing for [m * 10^e]. *)
Variant literal :=
  | LitInfinity
  | LitDecimal (m e : Z).

(** ExponentPart: [e] or [E], an optional sign, at least one digit.  When
    the text does not continue with a complete exponent part the literal
    ends before it and the exponent is 0. *)
Definition exponentPart (s : string) : Z :=
  match s with
  | String c r =>
      if (code c =? 101) || (code c =? 69) then
        let '(neg, r') :=
          match r with
          | String "-" t => (true, t)
          | String "+" t => (false, t)
          | _ => (false, r)
          end in
        let '(ds, _) := spanDigits r' in
        match ds with
        | EmptyString => 0
        | _ => if neg then - digitsValue 0 ds else digitsValue 0 ds
        end
      else 0
  | EmptyString => 0
  end.

Definition unsignedLiteral (s : string) : option literal :=
  match startsWith "Infinity" s with
  | Some _ => Some LitInfinity
  | None =>
      let '(ip, r1) := spanDigits s in
      let '(fp, r2) :=
        match r1 with
        | String "." t => spanDigits t
        | _ => (EmptyString, r1)
        end in
      match ip, fp with
      | EmptyString, EmptyString => None
      | _, _ =>
          Some (LitDecimal (digitsValue 0 (ip ++ fp))
                           (exponentPart r2 - Z.of_nat (String.length fp)))
      end
  end.

(** The Number value of [m * 10^e], rounded to nearest, ties to even. *)
Definition roundDecimal (neg : bool) (m e : Z) : number :=
  match m with
  | Zpos p =>
      if 0 <=? e
      then binary_round prec emax neg (p * Z.to_pos (10 ^ e)) 0
      else
        let '(q, e', l) :=
          SFdiv_core_binary prec emax (Zpos p) 0 (10 ^ (- e)) 0 in
        binary_round_aux prec emax neg q e' l
  | _ => S754_zero neg
  end.

Definition literalValue (neg : bool) (l : literal) : number :=
  match l with
  | LitInfinity => S754_infinity neg
  | LitDecimal m e => roundDecimal neg m e
  end.

(** [parseFloat(string)]: skip leading white space, read the longest prefix
    that is a StrDecimalLiteral, NaN when there is none. *)
Definition parseFloat (s : string) : number :=
  let t := trimStart s in
  let '(neg, u) :=
    match t with
    | String "-" r => (true, r)
    | String "+" r => (false, r)
    | _ => (false, t)
    end in
  match unsignedLiteral u with
  | Some l => literalValue neg l
  | None => S754_nan
  end.

(** [s.replace(pattern, replacement)] with a string pattern: the first
    occurrence of [pattern] in [s], if any, is replaced.  ([replacement]
    is taken literally; the source only passes the empty string.) *)
Fixpoint replace (pattern replacement s : string) : string :=
  match startsWith pattern s with
  | Some rest => replacement ++ rest
  | None =>
      match s with
      | String c r => String c (replace pattern replacement r)
      | EmptyString => EmptyString
      end
  end.

End JS.

Local Open Scope list_scope.
#[local] Set Warnings "-register-all".

(** ** Values sent in a response body *)

(** The JavaScript values the handlers put in a response.  Object
    properties are kept in source order. *)
Inductive value :=
  | VUndefined
  | VBool (b : bool)
  | VNumber (n : Z)
  | VString (s : string)
  | VArray (elements : list value)
  | VObject (properties : list (string * value)).

(** What [JSON.stringify] keeps of a value: a property whose value is
    [undefined] is left out of its object.  (The handlers put no
    [undefined] in an array.) *)
Fixpoint serialize (v : value) : value :=
  match v with
  | VArray l => VArray (map serialize l)
  | VObject ps =>
      VObject
        ((fix props (l : list (string * value)) : list (string * value) :=
            match l with
            | [] => []
            | (_, VUndefined) :: r => props r
            | (k, x) :: r => (k, serialize x) :: props r
            end) ps)
  | _ => v
  end.

(** Property lookup on a response body. *)
Fixpoint lookup (k : string) (ps : list (string * value)) : option value :=
  match ps with
  | [] => None
  | (k', x) :: r => if String.eqb k k' then Some x else lookup k r
  end.

Definition field (k : string) (v : value) : option value :=
  match v with
  | VObject ps => lookup k ps
  | _ => None
  end.

(** Express's response object: the status code is 200 until [status] sets
    it, and [json] sends the body. *)
Record Response := { statusCode : Z; body : value }.

Record Res := { pendingStatus : Z }.

Definition res : Res := {| pendingStatus := 200 |}.

Definition status (c : Z) (r : Res) : Res := {| pendingStatus := c |}.

Definition json (r : Res) (v : value) : Response :=
  {| statusCode := pendingStatus r; body := serialize v |}.

(** ** Requests, configuration and collaborators *)

Record Metadata := {
  endpoint : string;
  amount : string;
  recipient : string
}.

Record X402PaymentPayload := {
  version : string;
  network : string;
  transaction : option string;
  metadata : option Metadata
}.

(** [!payload.transaction]: the property is absent or the empty string. *)
Definition falsy (s : option string) : bool :=
  match s with
  | None | Some EmptyString => true
  | Some _ => false
  end.

(** [a || b] on a possibly absent string operand. *)
Definition or_else (a : option string) (b : string) : string :=
  match a with
  | None | Some EmptyString => b
  | Some s => s
  end.

Record Error := { message : string }.

Definition Buffer := list Z.

Inductive Promise (A : Type) :=
  | Fulfilled (a : A)
  | Rejected (e : Error).
Arguments Fulfilled {A} a.
Arguments Rejected {A} e.

Inductive Completion (A : Type) :=
  | Normal (a : A)
  | Throw (e : Error).
Arguments Normal {A} a.
Arguments Throw {A} e.

(** The constants read from the environment when the server starts. *)
Record Config := {
  NETWORK : string;
  USDC_MINT : string;
  MOCK_MODE : bool;
  KORA_SIGNER_ADDRESS : option string
}.

(** [process.env.NETWORK || 'solana-devnet'] and the like. *)
Definition config_of_env (network usdc_mint mock_mode signer : option string)
  : Config :=
  {| NETWORK := or_else network "solana-devnet";
     USDC_MINT := or_else usdc_mint "Gh9ZwEmdLJ8DscKNTkTqPbNwLNNBjuSzaG9Vp2KGtKJr";
     MOCK_MODE := match mock_mode with
                  | Some m => String.eqb m "true"
                  | None => false
                  end;
     KORA_SIGNER_ADDRESS := signer |}.

Record KoraClient := {
  signTransaction : string -> Promise string;
  signAndSendTransaction : string -> Promise string;
  getPayerSigner : Promise string
}.

(** What lies outside the handlers: [Buffer.from(_, 'base64')], the two
    parsers of web3.js (each returns or throws; the parsed transaction is
    never looked at), and the relay client. *)
Record World := {
  config : Config;
  Buffer_from_base64 : string -> Buffer;
  Transaction_from : Buffer -> Completion unit;
  VersionedTransaction_deserialize : Buffer -> Completion unit;
  koraClient : KoraClient
}.

(** ** Traces and the handler monad *)

Variant level := Log | Warn | Error_.

Inductive Event :=
  | Console (l : level)
  | CallBufferFrom (s : string)
  | CallTransactionFrom (b : Buffer)
  | CallVersionedDeserialize (b : Buffer)
  | CallParseFloat (s : string)
  | CallSignTransaction (tx : string)
  | CallSignAndSendTransaction (tx : string)
  | CallGetPayerSigner.

Definition is_relay_call (e : Event) : bool :=
  match e with
  | CallSignTransaction _ | CallSignAndSendTransaction _
  | CallGetPayerSigner => true
  | _ => false
  end.

Definition is_decoder_call (e : Event) : bool :=
  match e with
  | CallTransactionFrom _ | CallVersionedDeserialize _ => true
  | _ => false
  end.

Definition is_parseFloat_call (e : Event) : bool :=
  match e with
  | CallParseFloat _ => true
  | _ => false
  end.

Definition relay_calls (t : list Event) : list Event := filter is_relay_call t.

(** A computation: the calls it made, in order, and how it completed. *)
Definition M (A : Type) : Type := list Event * Completion A.

Definition trace {A} (m : M A) : list Event := fst m.
Definition completion {A} (m : M A) : Completion A := snd m.

Definition ret {A} (a : A) : M A := ([], Normal a).

Definition bind {A B} (m : M A) (f : A -> M B) : M B :=
  match m with
  | (t, Normal a) => let '(t', c) := f a in (t ++ t', c)
  | (t, Throw e) => (t, Throw e)
  end.

(** [try { m } catch (error) { h error }] *)
Definition try_catch {A} (m : M A) (h : Error -> M A) : M A :=
  match m with
  | (t, Throw e) => let '(t', c) := h e in (t ++ t', c)
  | (t, Normal a) => (t, Normal a)
  end.

(** One call to the outside, recorded with its outcome. *)
Definition call {A} (ev : Event) (c : Completion A) : M A := ([ev], c).

(** [await p] *)
Definition await {A} (p : Promise A) : Completion A :=
  match p with
  | Fulfilled a => Normal a
  | Rejected e => Throw e
  end.

(** [p.catch(() => v)] *)
Definition catch_with {A} (p : Promise A) (v : A) : Promise A :=
  match p with
  | Fulfilled a => Fulfilled a
  | Rejected _ => Fulfilled v
  end.

Declare Scope handler_scope.
Delimit Scope handler_scope with handler.
Notation "x <- m ;; k" := (bind m (fun x => k))
  (at level 61, m at next level, right associativity) : handler_scope.
Notation "m ;; k" := (bind m (fun _ => k))
  (at level 61, right associativity) : handler_scope.
Local Open Scope handler_scope.

Definition console (l : level) : M unit := call (Console l) (Normal tt).

(** ** The handlers *)

Section Handlers.

Variable w : World.

Let cfg := config w.
Let kora := koraClient w.

(** Lines 62-77 of the /verify handler: decode the transaction, best
    effort.  The result is [parsedOk]. *)
Definition decodeTransaction (tx : string) : M bool :=
  transactionBuffer <-
    call (CallBufferFrom tx) (Normal (Buffer_from_base64 w tx)) ;;
  try_catch
    (call (CallTransactionFrom transactionBuffer)
          (Transaction_from w transactionBuffer) ;;
     ret true)
    (fun _ =>
       try_catch
         (call (CallVersionedDeserialize transactionBuffer)
               (VersionedTransaction_deserialize w transactionBuffer) ;;
          ret true)
         (fun _ => console Warn ;; ret false)).

(** [expectedAmount <= 0 || isNaN(expectedAmount)] *)
Definition amountRejected (expectedAmount : JS.number) : bool :=
  JS.le expectedAmount JS.zero || JS.isNaN expectedAmount.

(** POST /verify *)
Definition verify (payload : X402PaymentPayload) : M Response :=
  try_catch
    (console Log ;;
     match transaction payload with
     | None | Some EmptyString =>
         ret (json (status 400 res)
                (VObject [("isValid", VBool false);
                          ("error", VString "Missing transaction data")]))
     | Some tx =>
     match metadata payload with
     | None =>
         ret (json (status 400 res)
                (VObject [("isValid", VBool false);
                          ("error", VString "Missing payment metadata")]))
     | Some md =>
         parsedOk <- decodeTransaction tx ;;
         expectedAmount <-
           call (CallParseFloat (amount md))
                (Normal (JS.parseFloat (amount md))) ;;
         if amountRejected expectedAmount then
           ret (json (status 400 res)
                  (VObject [("isValid", VBool false);
                            ("error", VString "Invalid payment amount")]))
         else
           rejection <-
             try_catch
               (call (CallSignTransaction tx)
                     (await (signTransaction kora tx)) ;;
                ret None)
               (fun error =>
                  console Error_ ;;
                  ret (Some
                    (json res
                       (VObject [("isValid", VBool false);
                                 ("error",
                                  VString "Transaction validation failed");
                                 ("details",
                                  if MOCK_MODE cfg
                                  then VString (message error)
                                  else VUndefined)])))) ;;
           match rejection with
           | Some sent => ret sent
           | None =>
               console Log ;;
               ret (json res
                      (VObject [("isValid", VBool true);
                                ("network", VString (network payload));
                                ("amount", VString (amount md));
                                ("recipient", VString (recipient md));
                                ("parsed", VBool parsedOk)]))
           end
     end
     end)
    (fun error =>
       console Error_ ;;
       ret (json (status 500 res)
              (VObject [("isValid", VBool false);
                        ("error", VString (message error))]))).

(** The template literal of line 145. *)
Definition explorerUrl (signature : string) : string :=
  ("https://explorer.solana.com/tx/" ++ signature ++ "?cluster="
     ++ JS.replace "solana-" "" (NETWORK cfg))%string.

(** POST /settle *)
Definition settle (payload : X402PaymentPayload) : M Response :=
  try_catch
    (console Log ;;
     match transaction payload with
     | None | Some EmptyString =>
         ret (json (status 400 res)
                (VObject [("success", VBool false);
                          ("error", VString "Missing transaction data")]))
     | Some tx =>
         signature <-
           call (CallSignAndSendTransaction tx)
                (await (signAndSendTransaction kora tx)) ;;
         console Log ;;
         ret (json res
                (VObject [("success", VBool true);
                          ("signature", VString signature);
                          ("network", VString (network payload));
                          ("explorerUrl", VString (explorerUrl signature))]))
     end)
    (fun error =>
       console Error_ ;;
       ret (json (status 500 res)
              (VObject [("success", VBool false);
                        ("error", VString (message error))]))).

(** GET /supported *)
Definition supported : M Response :=
  try_catch
    (feePayer <-
       (if MOCK_MODE cfg
        then ret (or_else (KORA_SIGNER_ADDRESS cfg)
                          "MockPayerAddress11111111111111111111111111")
        else call CallGetPayerSigner
               (await (catch_with (getPayerSigner kora)
                                  "UnknownPayerAddress"))) ;;
     ret (json res
            (VObject [("version", VString "0.0.1");
                      ("network", VString (NETWORK cfg));
                      ("paymentScheme", VString "exact");
                      ("feePayer", VString feePayer);
                      ("tokens",
                       VArray [VObject [("mint", VString (USDC_MINT cfg));
                                        ("symbol", VString "USDC");
                                        ("decimals", VNumber 6)]]);
                      ("endpoints",
                       VObject [("verify", VString "/verify");
                                ("settle", VString "/settle")])])))
    (fun error =>
       console Error_ ;;
       ret (json (status 500 res)
              (VObject [("error", VString (message error))]))).

End Handlers.

(** ** Sample worlds and requests *)

Definition devnet (mock : bool) : Config :=
  {| NETWORK := "solana-devnet";
     USDC_MINT := "Gh9ZwEmdLJ8DscKNTkTqPbNwLNNBjuSzaG9Vp2KGtKJr";
     MOCK_MODE := mock;
     KORA_SIGNER_ADDRESS := None |}.

Definition acceptingRelay : KoraClient :=
  {| signTransaction := fun _ => Fulfilled "sig1";
     signAndSendTransaction := fun _ => Fulfilled "5VfYmG";
     getPayerSigner := Fulfilled "PayerAddr" |}.

Definition rejectingRelay : KoraClient :=
  {| signTransaction := fun _ => Rejected {| message := "insufficient funds" |};
     signAndSendTransaction :=
       fun _ => Rejected {| message := "relay unreachable" |};
     getPayerSigner := Rejected {| message := "relay unreachable" |} |}.

(** A world whose parsers recognise nothing. *)
Definition opaqueWorld (c : Config) (k : KoraClient) : World :=
  {| config := c;
     Buffer_from_base64 := fun _ => [1; 2; 3];
     Transaction_from := fun _ => Throw {| message := "not legacy" |};
     VersionedTransaction_deserialize :=
       fun _ => Throw {| message := "not versioned" |};
     koraClient := k |}.

(** A world whose legacy parser accepts every buffer. *)
Definition legacyWorld (c : Config) (k : KoraClient) : World :=
  {| config := c;
     Buffer_from_base64 := fun _ => [1; 2; 3];
     Transaction_from := fun _ => Normal tt;
     VersionedTransaction_deserialize :=
       fun _ => Throw {| message := "not versioned" |};
     koraClient := k |}.

Definition request (tx : option string) (amt : string) : X402PaymentPayload :=
  {| version := "1";
     network := "solana-devnet";
     transaction := tx;
     metadata := Some {| endpoint := "/x"; amount := amt;
                         recipient := "Rcp1" |} |}.

(** A server in mock mode with a signer address configured. *)
Definition configuredSigner : Config :=
  {| NETWORK := "solana-devnet";
     USDC_MINT := "Gh9ZwEmdLJ8DscKNTkTqPbNwLNNBjuSzaG9Vp2KGtKJr";
     MOCK_MODE := true;
     KORA_SIGNER_ADDRESS :=
       Some "7xKXtg2CW87d97TXJSDpbD5jBkheTqA83TZRuJosgAsU" |}.

(** A server whose NETWORK does not begin with "solana-". *)
Definition sidechain (mock : bool) : Config :=
  {| NETWORK := "my-solana-devnet";
     USDC_MINT := "Gh9ZwEmdLJ8DscKNTkTqPbNwLNNBjuSzaG9Vp2KGtKJr";
     MOCK_MODE := mock;
     KORA_SIGNER_ADDRESS := None |}.

Definition mainnetRequest : X402PaymentPayload :=
  {| version := "1";
     network := "solana-mainnet";
     transaction := Some "AQID";
     metadata := None |}.

(** [s] without [prefix] when it begins with it, [s] otherwise. *)
Definition stripPrefix (prefix s : string) : string :=
  match JS.startsWith prefix s with
  | Some rest => rest
  | None => s
  end.

(** The explorer link in the specification's words: the cluster is the
    network name with the prefix "solana-" stripped.  To be compared with
    [explorerUrl]. *)
Definition explorerUrlByPrefix (w : World) (signature : string) : string :=
  ("https://explorer.solana.com/tx/" ++ signature ++ "?cluster="
     ++ stripPrefix "solana-" (NETWORK (config w)))%string.

(** No call to [parseFloat] comes after a call to one of the parsers: the
    amount was checked before the decoder ran. *)
Fixpoint amountCheckedBeforeDecoding (t : list Event) : bool :=
  match t with
  | [] => true
  | e :: r =>
      if is_decoder_call e
      then negb (existsb is_parseFloat_call r)
      else amountCheckedBeforeDecoding r
  end.

(** [x] is a finite number greater than zero. *)
Definition positiveFinite (x : JS.number) : bool :=
  JS.gt x JS.zero && JS.isFinite x.

(** ** Outcomes of the handlers *)

Definition succeeded {A} (c : Completion A) : bool :=
  match c with
  | Normal _ => true
  | Throw _ => false
  end.

(** The transaction bytes parse in the legacy format. *)
Definition legacyOk (w : World) (tx : string) : bool :=
  succeeded (Transaction_from w (Buffer_from_base64 w tx)).

(** The transaction bytes parse in the versioned format. *)
Definition versionedOk (w : World) (tx : string) : bool :=
  succeeded (VersionedTransaction_deserialize w (Buffer_from_base64 w tx)).

(** The 400 response of /verify with the given reason. *)
Definition structuralError (reason : string) : Response :=
  {| statusCode := 400;
     body := VObject [("isValid", VBool false); ("error", VString reason)] |}.

(** The response of /verify to a relay rejection. *)
Definition relayRejection (mock : bool) (e : Error) : Response :=
  {| statusCode := 200;
     body := VObject
       (("isValid", VBool false)
        :: ("error", VString "Transaction validation failed")
        :: (if mock then [("details", VString (message e))] else [])) |}.

(** The response of /verify to an accepted payment. *)
Definition validPayment (p : X402PaymentPayload) (md : Metadata)
  (parsed : bool) : Response :=
  {| statusCode := 200;
     body := VObject [("isValid", VBool true);
                      ("network", VString (network p));
                      ("amount", VString (amount md));
                      ("recipient", VString (recipient md));
                      ("parsed", VBool parsed)] |}.

(** [tx] passes the guard [!payload.transaction]. *)
Definition nonEmpty (tx : string) : Prop := falsy (Some tx) = false.

(** What [verify] does after the decoder and the amount guard. *)
Definition afterAmountCheck (w : World) (p : X402PaymentPayload)
  (tx : string) (md : Metadata) : list Event * Response :=
  if amountRejected (JS.parseFloat (amount md)) then
    ([], structuralError "Invalid payment amount")
  else
    match signTransaction (koraClient w) tx with
    | Fulfilled _ =>
        ([CallSignTransaction tx; Console Log],
         validPayment p md (legacyOk w tx || versionedOk w tx))
    | Rejected e =>
        ([CallSignTransaction tx; Console Error_],
         relayRejection (MOCK_MODE (config w)) e)
    end.

(** The fee payer /supported advertises. *)
Definition resolvedFeePayer (w : World) : string :=
  if MOCK_MODE (config w)
  then or_else (KORA_SIGNER_ADDRESS (config w))
               "MockPayerAddress11111111111111111111111111"
  else match getPayerSigner (koraClient w) with
       | Fulfilled address => address
       | Rejected _ => "UnknownPayerAddress"
       end.

(** ** The other routes *)

(** GET /health *)
Definition health (w : World) : M Response :=
  ret (json res
         (VObject [("status", VString "ok");
                   ("service", VString "spl-8004-x402-facilitator");
                   ("mockMode", VBool (MOCK_MODE (config w)));
                   ("network", VString (NETWORK (config w)))])).

(** ToBoolean, as [!x] and [x || y] use it. *)
Definition truthy (v : value) : bool :=
  match v with
  | VUndefined => false
  | VBool b => b
  | VNumber n => negb (n =? 0)
  | VString s => negb (String.eqb s "")
  | VArray _ | VObject _ => true
  end.

(** An integer time value in a template literal: its decimal digits. *)
Definition decimal (n : N) : string := NilZero.string_of_uint (N.to_uint n).

Module Payment.

(** The three properties POST /payment reads from [req.body], which has no
    declared type: each is a value of the model, [VUndefined] when the
    property is absent.  (The model's numbers are the integers; JSON null
    is not in it.) *)
Record Body := {
  recipient : value;
  amount : value;
  memo : value
}.

End Payment.

(** POST /payment.  [now] is what [Date.now()] returns and [randomTail]
    what [Math.random().toString(36).slice(2)] evaluates to. *)
Definition payment (w : World) (now : N) (randomTail : string)
  (body : Payment.Body) : M Response :=
  try_catch
    (console Log ;;
     if negb (truthy (Payment.recipient body))
        || negb (truthy (Payment.amount body))
     then
       ret (json (status 400 res)
              (VObject [("success", VBool false);
                        ("error", VString "Missing recipient or amount")]))
     else
       let mockSignature := ("Mock" ++ decimal now ++ randomTail)%string in
       console Log ;;
       ret (json res
              (VObject [("success", VBool true);
                        ("signature", VString mockSignature);
                        ("network", VString (NETWORK (config w)));
                        ("amount", Payment.amount body);
                        ("recipient", Payment.recipient body);
                        ("memo",
                         if truthy (Payment.memo body)
                         then Payment.memo body else VString "");
                        ("explorerUrl",
                         VString (explorerUrl w mockSignature))])))
    (fun error =>
       console Error_ ;;
       ret (json (status 500 res)
              (VObject [("success", VBool false);
                        ("error", VString (message error))]))).

(** The error-handling middleware of lines 254-260. *)
Definition errorMiddleware (err : Error) : M Response :=
  console Error_ ;;
  ret (json (status 500 res)
         (VObject [("error", VString "Internal server error");
                   ("message", VString (message err))])).

(** [c] can begin a StrDecimalLiteral: a digit, a sign, the point or the
    [I] of [Infinity]. *)
Definition canStartNumber (c : ascii) : bool :=
  JS.isDigit c || Ascii.eqb c "+" || Ascii.eqb c "-" || Ascii.eqb c "."
  || Ascii.eqb c "I".

(** Every character of [s] is the digit 0. *)
Fixpoint allZeros (s : string) : bool :=
  match s with
  | EmptyString => true
  | String c r => Ascii.eqb c "0" && allZeros r
  end.

(** The same request with other values in the properties no handler
    reads for a decision: [version] and [metadata.endpoint]. *)
Definition withVersionAndEndpoint (v e : string) (p : X402PaymentPayload)
  : X402PaymentPayload :=
  {| version := v;
     network := network p;
     transaction := transaction p;
     metadata :=
       match metadata p with
       | Some md => Some {| endpoint := e; amount := amount md;
                            recipient := recipient md |}
       | None => None
       end |}.

(** The same request with another [metadata]. *)
Definition withMetadata (m : option Metadata) (p : X402PaymentPayload)
  : X402PaymentPayload :=
  {| version := version p;
     network := network p;
     transaction := transaction p;
     metadata := m |}.

(** The same world under another configuration. *)
Definition withConfig (c : Config) (w : World) : World :=
  {| config := c;
     Buffer_from_base64 := Buffer_from_base64 w;
     Transaction_from := Transaction_from w;
     VersionedTransaction_deserialize := VersionedTransaction_deserialize w;
     koraClient := koraClient w |}.

(** A call to something other than the console. *)
Definition is_outside_call (e : Event) : bool :=
  match e with
  | Console _ => false
  | _ => true
  end.

(** [s] reads as a zero: no digit but 0 comes before the first character
    that is neither a digit nor the first decimal point. *)
Fixpoint zeroDigits (afterPoint : bool) (s : string) : bool :=
  match s with
  | EmptyString => true
  | String c r =>
      if Ascii.eqb c "0" then zeroDigits afterPoint r
      else if Ascii.eqb c "." then
             if afterPoint then true else zeroDigits true r
      else negb (JS.isDigit c)
  end.

(** An unsigned text that begins with the digit 0 and reads as a zero:
    "0", "000", "0.00", "0 USDC", "0e5". *)
Definition zeroAmount (s : string) : bool :=
  match s with
  | String c r => Ascii.eqb c "0" && zeroDigits false r
  | EmptyString => false
  end.

(** ** Lemmas on the runs of the handlers *)

Ltac run_handler :=
  cbn [bind call try_catch ret console trace completion fst snd app await].

(** With nothing set in the environment the server runs on devnet, not in
    mock mode. *)
Example default_config :
  config_of_env None None None None = devnet false.
Proof. reflexivity. Qed.

(** [parseFloat] on some amounts: a prefix is enough, an exponent can
    underflow to zero or overflow to infinity. *)
Example parseFloat_samples :
  JS.parseFloat "1.5" = S754_finite false 6755399441055744 (-52) /\
  JS.parseFloat " -2.5e3 USDC" = S754_finite true 5497558138880000 (-41) /\
  JS.parseFloat "1e-400" = S754_zero false /\
  JS.parseFloat "-0" = S754_zero true /\
  JS.parseFloat "1e400" = S754_infinity false /\
  JS.parseFloat "Infinity" = S754_infinity false /\
  JS.parseFloat "abc" = S754_nan /\
  JS.parseFloat "." = S754_nan.
Proof. repeat split; vm_compute; reflexivity. Qed.

Lemma falsy_cases (o : option string) :
  falsy o = true \/ exists tx, o = Some tx /\ nonEmpty tx.
Proof.
  destruct o as [[|c r]|]; auto.
  right. exists (String c r). split; reflexivity.
Qed.

(** The decoder never throws; it calls the legacy parser first and the
    versioned one only after the legacy one threw. *)
Lemma decodeTransaction_eq (w : World) (tx : string) :
  decodeTransaction w tx =
  (CallBufferFrom tx
   :: CallTransactionFrom (Buffer_from_base64 w tx)
   :: (if legacyOk w tx then []
       else CallVersionedDeserialize (Buffer_from_base64 w tx)
            :: (if versionedOk w tx then [] else [Console Warn])),
   Normal (legacyOk w tx || versionedOk w tx)).
Proof.
  unfold decodeTransaction, legacyOk, versionedOk.
  run_handler.
  destruct (Transaction_from w (Buffer_from_base64 w tx)) as [[]|e1];
    cbn; [reflexivity|].
  destruct (VersionedTransaction_deserialize w (Buffer_from_base64 w tx))
    as [[]|e2]; reflexivity.
Qed.

Lemma verify_missing_transaction (w : World) (p : X402PaymentPayload) :
  falsy (transaction p) = true ->
  verify w p = ([Console Log], Normal (structuralError "Missing transaction data")).
Proof.
  unfold verify. destruct (transaction p) as [[|c r]|]; cbn;
    intros H; try discriminate H; reflexivity.
Qed.

Lemma verify_missing_metadata (w : World) (p : X402PaymentPayload)
  (tx : string) :
  transaction p = Some tx -> nonEmpty tx -> metadata p = None ->
  verify w p = ([Console Log], Normal (structuralError "Missing payment metadata")).
Proof.
  unfold verify. intros -> Hne ->.
  destruct tx as [|c r]; [discriminate Hne | reflexivity].
Qed.

Lemma verify_with_metadata (w : World) (p : X402PaymentPayload)
  (tx : string) (md : Metadata) :
  transaction p = Some tx -> nonEmpty tx -> metadata p = Some md ->
  verify w p =
  (Console Log
   :: trace (decodeTransaction w tx)
   ++ CallParseFloat (amount md) :: fst (afterAmountCheck w p tx md),
   Normal (snd (afterAmountCheck w p tx md))).
Proof.
  unfold verify, afterAmountCheck. intros -> Hne ->.
  destruct tx as [|c r]; [discriminate Hne|].
  rewrite decodeTransaction_eq.
  run_handler.
  destruct (amountRejected (JS.parseFloat (amount md))).
  - cbn. rewrite <- ?app_assoc. reflexivity.
  - run_handler.
    destruct (signTransaction (koraClient w) (String c r)) as [sig|e];
      run_handler.
    + rewrite <- ?app_assoc. reflexivity.
    + destruct (MOCK_MODE (config w));
        rewrite <- ?app_assoc; reflexivity.
Qed.

Lemma decoder_makes_no_relay_call (w : World) (tx : string) :
  relay_calls (trace (decodeTransaction w tx)) = [].
Proof.
  rewrite decodeTransaction_eq. cbn.
  destruct (legacyOk w tx); [reflexivity|].
  destruct (versionedOk w tx); reflexivity.
Qed.

Lemma relay_calls_app (t u : list Event) :
  relay_calls (t ++ u) = relay_calls t ++ relay_calls u.
Proof. apply filter_app. Qed.

(** The relay calls of a /verify request that carries a transaction and
    metadata: none when the amount guard fires, one [sign] otherwise. *)
Lemma verify_relay_calls (w : World) (p : X402PaymentPayload)
  (tx : string) (md : Metadata) :
  transaction p = Some tx -> nonEmpty tx -> metadata p = Some md ->
  relay_calls (trace (verify w p)) =
  if amountRejected (JS.parseFloat (amount md)) then []
  else [CallSignTransaction tx].
Proof.
  intros Htx Hne Hmd.
  rewrite (verify_with_metadata w p tx md Htx Hne Hmd).
  unfold trace at 1. cbn [fst].
  change (Console Log :: ?t) with ([Console Log] ++ t).
  rewrite !relay_calls_app, decoder_makes_no_relay_call.
  unfold afterAmountCheck.
  destruct (amountRejected (JS.parseFloat (amount md))); [reflexivity|].
  destruct (signTransaction (koraClient w) tx); reflexivity.
Qed.

(** A [sign] call in the trace of /verify: the request passed the three
    guards. *)
Lemma verify_reaches_relay (w : World) (p : X402PaymentPayload)
  (tx : string) :
  In (CallSignTransaction tx) (trace (verify w p)) ->
  transaction p = Some tx /\ nonEmpty tx /\
  exists md, metadata p = Some md /\
             amountRejected (JS.parseFloat (amount md)) = false.
Proof.
  intros Hin.
  assert (Hrel : In (CallSignTransaction tx) (relay_calls (trace (verify w p))))
    by (apply filter_In; split; [exact Hin | reflexivity]).
  clear Hin.
  destruct (falsy_cases (transaction p)) as [Hf | (tx' & Htx & Hne)].
  - rewrite (verify_missing_transaction w p Hf) in Hrel. destruct Hrel.
  - destruct (metadata p) as [md|] eqn:Hmd.
    + rewrite (verify_relay_calls w p tx' md Htx Hne Hmd) in Hrel.
      destruct (amountRejected (JS.parseFloat (amount md))) eqn:Ha;
        [destruct Hrel|].
      destruct Hrel as [Heq | []]. injection Heq as ->.
      repeat split; try assumption. exists md. split; [reflexivity | exact Ha].
    + rewrite (verify_missing_metadata w p tx' Htx Hne Hmd) in Hrel.
      destruct Hrel.
Qed.

(** The amount guard fires exactly when the parsed amount is not a number
    greater than zero. *)
Lemma amountRejected_spec (x : JS.number) :
  amountRejected x = negb (JS.gt x JS.zero).
Proof.
  destruct x as [s|s| |s m e]; try destruct s; reflexivity.
Qed.

Lemma settle_missing_transaction (w : World) (p : X402PaymentPayload) :
  falsy (transaction p) = true ->
  settle w p =
  ([Console Log],
   Normal {| statusCode := 400;
             body := VObject [("success", VBool false);
                              ("error", VString "Missing transaction data")] |}).
Proof.
  unfold settle. destruct (transaction p) as [[|c r]|]; cbn;
    intros H; try discriminate H; reflexivity.
Qed.

Lemma settle_with_transaction (w : World) (p : X402PaymentPayload)
  (tx : string) :
  transaction p = Some tx -> nonEmpty tx ->
  settle w p =
  match signAndSendTransaction (koraClient w) tx with
  | Fulfilled signature =>
      ([Console Log; CallSignAndSendTransaction tx; Console Log],
       Normal {| statusCode := 200;
                 body := VObject
                   [("success", VBool true);
                    ("signature", VString signature);
                    ("network", VString (network p));
                    ("explorerUrl", VString (explorerUrl w signature))] |})
  | Rejected e =>
      ([Console Log; CallSignAndSendTransaction tx; Console Error_],
       Normal {| statusCode := 500;
                 body := VObject [("success", VBool false);
                                  ("error", VString (message e))] |})
  end.
Proof.
  unfold settle. intros -> Hne.
  destruct tx as [|c r]; [discriminate Hne|].
  run_handler.
  destruct (signAndSendTransaction (koraClient w) (String c r)); reflexivity.
Qed.

Lemma supported_eq (w : World) :
  supported w =
  (if MOCK_MODE (config w) then [] else [CallGetPayerSigner],
   Normal {| statusCode := 200;
             body := VObject
               [("version", VString "0.0.1");
                ("network", VString (NETWORK (config w)));
                ("paymentScheme", VString "exact");
                ("feePayer", VString (resolvedFeePayer w));
                ("tokens",
                 VArray [VObject [("mint", VString (USDC_MINT (config w)));
                                  ("symbol", VString "USDC");
                                  ("decimals", VNumber 6)]]);
                ("endpoints",
                 VObject [("verify", VString "/verify");
                          ("settle", VString "/settle")])] |}).
Proof.
  unfold supported, resolvedFeePayer.
  destruct (MOCK_MODE (config w)); [reflexivity|].
  destruct (getPayerSigner (koraClient w)); reflexivity.
Qed.

(** ** The validator, the decoder and the relay call of /verify *)

(** C1, as the code has it.  The handler tests (a) the transaction, then (b)
    the metadata, each ending the request with its own 400 response before
    anything else is called.  With both present it runs the decoder first
    (the legacy parser is always called), and only then (c) calls
    [parseFloat] on the amount: an amount that does not parse to a number
    greater than zero ends the request with 400 "Invalid payment amount",
    any other (positive infinity included) is followed by the relay's
    [sign] call and a 200 response. *)
Theorem verify_pipeline (w : World) (p : X402PaymentPayload) :
  match transaction p with
  | None | Some EmptyString =>
      verify w p =
      ([Console Log], Normal (structuralError "Missing transaction data"))
  | Some tx =>
      match metadata p with
      | None =>
          verify w p =
          ([Console Log], Normal (structuralError "Missing payment metadata"))
      | Some md =>
          exists decoding parsed rest response,
            decodeTransaction w tx = (decoding, Normal parsed) /\
            In (CallTransactionFrom (Buffer_from_base64 w tx)) decoding /\
            verify w p =
            (Console Log :: decoding ++ CallParseFloat (amount md) :: rest,
             Normal response) /\
            if JS.gt (JS.parseFloat (amount md)) JS.zero
            then (exists l, rest = [CallSignTransaction tx; Console l]) /\
                 statusCode response = 200
            else rest = [] /\
                 response = structuralError "Invalid payment amount"
      end
  end.
Proof.
  destruct (transaction p) as [tx|] eqn:Htx.
  2: { apply verify_missing_transaction. now rewrite Htx. }
  destruct tx as [|c r].
  { apply verify_missing_transaction. now rewrite Htx. }
  set (tx := String c r) in *.
  assert (Hne : nonEmpty tx) by reflexivity.
  destruct (metadata p) as [md|] eqn:Hmd.
  2: { exact (verify_missing_metadata w p tx Htx Hne Hmd). }
  exists (trace (decodeTransaction w tx)),
         (legacyOk w tx || versionedOk w tx),
         (fst (afterAmountCheck w p tx md)),
         (snd (afterAmountCheck w p tx md)).
  split; [rewrite decodeTransaction_eq; reflexivity|].
  split; [rewrite decodeTransaction_eq; cbn; auto|].
  split; [exact (verify_with_metadata w p tx md Htx Hne Hmd)|].
  unfold afterAmountCheck. rewrite amountRejected_spec.
  destruct (JS.gt (JS.parseFloat (amount md)) JS.zero); cbn [negb].
  - destruct (signTransaction (koraClient w) tx); cbn; eauto.
  - split; reflexivity.
Qed.

(** C1 as stated fails: on a request whose amount is "0" the two parsers
    are called before [parseFloat], and the request still ends with the
    amount's 400 response.  And check (c) does not ask for a finite number:
    with the amount "Infinity" the relay is called. *)
Lemma verify_decodes_before_amount_check :
  let w := opaqueWorld (devnet false) acceptingRelay in
  let r := verify w (request (Some "AQID") "0") in
  trace r = [Console Log; CallBufferFrom "AQID"; CallTransactionFrom [1; 2; 3];
             CallVersionedDeserialize [1; 2; 3]; Console Warn;
             CallParseFloat "0"] /\
  completion r = Normal (structuralError "Invalid payment amount") /\
  ~ amountCheckedBeforeDecoding (trace r) = true /\
  JS.isFinite (JS.parseFloat "Infinity") = false /\
  In (CallSignTransaction "AQID")
     (trace (verify w (request (Some "AQID") "Infinity"))).
Proof.
  cbv zeta. split; [reflexivity|]. split; [reflexivity|].
  split; [vm_compute; discriminate|]. split; [reflexivity|].
  vm_compute. auto 10.
Qed.

(** C2, as the code has it: with a transaction and metadata present, an
    amount that [parseFloat] does not turn into a number greater than zero
    (NaN, a zero, a negative number) is answered with 400
    [{isValid:false, error:"Invalid payment amount"}], and the relay is not
    called. *)
Theorem verify_rejects_bad_amount (w : World) (p : X402PaymentPayload)
  (tx : string) (md : Metadata) :
  transaction p = Some tx -> nonEmpty tx -> metadata p = Some md ->
  JS.gt (JS.parseFloat (amount md)) JS.zero = false ->
  completion (verify w p) =
    Normal {| statusCode := 400;
              body := VObject [("isValid", VBool false);
                               ("error", VString "Invalid payment amount")] |}
  /\ relay_calls (trace (verify w p)) = [].
Proof.
  intros Htx Hne Hmd Hgt. split.
  - rewrite (verify_with_metadata w p tx md Htx Hne Hmd).
    unfold completion, afterAmountCheck. cbn [snd].
    rewrite amountRejected_spec, Hgt. reflexivity.
  - rewrite (verify_relay_calls w p tx md Htx Hne Hmd).
    rewrite amountRejected_spec, Hgt. reflexivity.
Qed.

Lemma verify_rejects_bad_amount_witness :
  completion (verify (opaqueWorld (devnet false) acceptingRelay)
                     (request (Some "AQID") "-2.5e3 USDC")) =
    Normal {| statusCode := 400;
              body := VObject [("isValid", VBool false);
                               ("error", VString "Invalid payment amount")] |}
  /\ relay_calls (trace (verify (opaqueWorld (devnet false) acceptingRelay)
                                (request (Some "AQID") "-2.5e3 USDC"))) = [].
Proof.
  apply (verify_rejects_bad_amount
           (opaqueWorld (devnet false) acceptingRelay)
           (request (Some "AQID") "-2.5e3 USDC") "AQID"
           {| endpoint := "/x"; amount := "-2.5e3 USDC"; recipient := "Rcp1" |});
    reflexivity.
Defined.

(** C2 as stated fails: "Infinity" does not parse to a positive finite
    number, yet the request is not answered with the amount's 400 response:
    the relay is called and the payment is reported valid. *)
Lemma verify_accepts_Infinity :
  let w := opaqueWorld (devnet false) acceptingRelay in
  let p := request (Some "AQID") "Infinity" in
  positiveFinite (JS.parseFloat "Infinity") = false /\
  completion (verify w p) <>
    Normal (structuralError "Invalid payment amount") /\
  relay_calls (trace (verify w p)) = [CallSignTransaction "AQID"] /\
  completion (verify w p) =
    Normal {| statusCode := 200;
              body := VObject [("isValid", VBool true);
                               ("network", VString "solana-devnet");
                               ("amount", VString "Infinity");
                               ("recipient", VString "Rcp1");
                               ("parsed", VBool false)] |}.
Proof.
  cbv zeta. split; [reflexivity|]. split; [|split; reflexivity].
  vm_compute. discriminate.
Qed.

(** C3: the decoder step never throws.  It calls the legacy parser first,
    the versioned parser only when the legacy one threw, and folds two
    failures into [parsedOk = false] (with a warning on the console).  An
    unrecognized result does not stop the request: the handler completes
    with a response, and verification goes on to the relay's [sign] call
    whatever the decoder found: the relay calls, the status and the verdict
    of the request are those of the amount and of the relay alone, the same
    in every world that differs only in what the two parsers do. *)
Theorem decoder_never_blocks (w : World) (p : X402PaymentPayload)
  (tx : string) (md : Metadata) :
  transaction p = Some tx -> nonEmpty tx -> metadata p = Some md ->
  decodeTransaction w tx =
    (CallBufferFrom tx
     :: CallTransactionFrom (Buffer_from_base64 w tx)
     :: (if succeeded (Transaction_from w (Buffer_from_base64 w tx)) then []
         else CallVersionedDeserialize (Buffer_from_base64 w tx)
              :: (if succeeded (VersionedTransaction_deserialize w
                                  (Buffer_from_base64 w tx))
                  then [] else [Console Warn])),
     Normal (succeeded (Transaction_from w (Buffer_from_base64 w tx))
             || succeeded (VersionedTransaction_deserialize w
                             (Buffer_from_base64 w tx))))
  /\ (exists r, completion (verify w p) = Normal r)
  /\ relay_calls (trace (verify w p)) =
       (if JS.gt (JS.parseFloat (amount md)) JS.zero
        then [CallSignTransaction tx] else [])
  /\ (forall u : World,
        config u = config w -> koraClient u = koraClient w ->
        relay_calls (trace (verify u p)) = relay_calls (trace (verify w p)) /\
        exists r s,
          completion (verify w p) = Normal r /\
          completion (verify u p) = Normal s /\
          statusCode s = statusCode r /\
          field "isValid" (body s) = field "isValid" (body r) /\
          field "error" (body s) = field "error" (body r)).
Proof.
  intros Htx Hne Hmd. split; [apply decodeTransaction_eq|]. split.
  { rewrite (verify_with_metadata w p tx md Htx Hne Hmd). eexists. reflexivity. }
  split.
  { rewrite (verify_relay_calls w p tx md Htx Hne Hmd), amountRejected_spec.
    destruct (JS.gt (JS.parseFloat (amount md)) JS.zero); reflexivity. }
  intros u Hc Hk. split.
  - rewrite (verify_relay_calls u p tx md Htx Hne Hmd),
            (verify_relay_calls w p tx md Htx Hne Hmd). reflexivity.
  - rewrite (verify_with_metadata w p tx md Htx Hne Hmd),
            (verify_with_metadata u p tx md Htx Hne Hmd).
    unfold afterAmountCheck. rewrite Hc, Hk.
    destruct (amountRejected (JS.parseFloat (amount md))).
    + do 2 eexists. repeat split.
    + destruct (signTransaction (koraClient w) tx);
        do 2 eexists; repeat split.
Qed.

Lemma decoder_never_blocks_witness :
  let w := opaqueWorld (devnet false) acceptingRelay in
  let u := legacyWorld (devnet false) acceptingRelay in
  let p := request (Some "AQID") "1.5" in
  decodeTransaction w "AQID" =
    ([CallBufferFrom "AQID"; CallTransactionFrom [1; 2; 3];
      CallVersionedDeserialize [1; 2; 3]; Console Warn], Normal false)
  /\ (exists r, completion (verify w p) = Normal r)
  /\ relay_calls (trace (verify w p)) = [CallSignTransaction "AQID"]
  /\ relay_calls (trace (verify u p)) = relay_calls (trace (verify w p)).
Proof.
  destruct (decoder_never_blocks
              (opaqueWorld (devnet false) acceptingRelay)
              (request (Some "AQID") "1.5") "AQID"
              {| endpoint := "/x"; amount := "1.5"; recipient := "Rcp1" |}
              eq_refl eq_refl eq_refl) as (H1 & H2 & H3 & H4).
  split; [exact H1|]. split; [exact H2|]. split; [exact H3|].
  exact (proj1 (H4 (legacyWorld (devnet false) acceptingRelay)
                   eq_refl eq_refl)).
Defined.

(** C4: when /verify reached the relay's [sign] call and the relay rejected
    it, the response is the 200 response [{isValid:false,
    error:"Transaction validation failed"}], with the relay's message as
    [details] in mock mode and without a [details] property otherwise. *)
Theorem verify_relay_error (w : World) (p : X402PaymentPayload)
  (tx : string) (e : Error) :
  In (CallSignTransaction tx) (trace (verify w p)) ->
  signTransaction (koraClient w) tx = Rejected e ->
  exists r,
    completion (verify w p) = Normal r /\
    statusCode r = 200 /\
    body r = VObject
      (("isValid", VBool false)
       :: ("error", VString "Transaction validation failed")
       :: (if MOCK_MODE (config w)
           then [("details", VString (message e))] else [])) /\
    field "isValid" (body r) = Some (VBool false) /\
    field "error" (body r) = Some (VString "Transaction validation failed") /\
    field "details" (body r) =
      (if MOCK_MODE (config w) then Some (VString (message e)) else None).
Proof.
  intros Hin Hrej.
  destruct (verify_reaches_relay w p tx Hin) as (Htx & Hne & md & Hmd & Ha).
  rewrite (verify_with_metadata w p tx md Htx Hne Hmd).
  unfold afterAmountCheck. rewrite Ha, Hrej. cbn [completion snd].
  eexists; split; [reflexivity|].
  destruct (MOCK_MODE (config w)); repeat split.
Qed.

Lemma verify_relay_error_witness :
  exists r,
    completion (verify (opaqueWorld (devnet true) rejectingRelay)
                       (request (Some "AQID") "1.5")) = Normal r /\
    statusCode r = 200 /\
    body r = VObject [("isValid", VBool false);
                      ("error", VString "Transaction validation failed");
                      ("details", VString "insufficient funds")] /\
    field "isValid" (body r) = Some (VBool false) /\
    field "error" (body r) = Some (VString "Transaction validation failed") /\
    field "details" (body r) = Some (VString "insufficient funds").
Proof.
  apply (verify_relay_error
           (opaqueWorld (devnet true) rejectingRelay)
           (request (Some "AQID") "1.5") "AQID"
           {| message := "insufficient funds" |}).
  - vm_compute. auto 10.
  - reflexivity.
Defined.

(** C5: a request without a transaction, or with an empty one, is answered
    with 400 and "Missing transaction data" by both /verify
    ([isValid:false]) and /settle ([success:false]), and neither handler
    calls the relay. *)
Theorem missing_transaction_rejected (w : World) (p : X402PaymentPayload) :
  falsy (transaction p) = true ->
  completion (verify w p) =
    Normal {| statusCode := 400;
              body := VObject [("isValid", VBool false);
                               ("error", VString "Missing transaction data")] |}
  /\ completion (settle w p) =
    Normal {| statusCode := 400;
              body := VObject [("success", VBool false);
                               ("error", VString "Missing transaction data")] |}
  /\ relay_calls (trace (verify w p)) = []
  /\ relay_calls (trace (settle w p)) = [].
Proof.
  intros Hf.
  rewrite (verify_missing_transaction w p Hf),
          (settle_missing_transaction w p Hf).
  repeat split.
Qed.

Lemma missing_transaction_rejected_witness :
  completion (verify (opaqueWorld (devnet false) acceptingRelay)
                     (request (Some "") "1.5")) =
    Normal {| statusCode := 400;
              body := VObject [("isValid", VBool false);
                               ("error", VString "Missing transaction data")] |}
  /\ completion (settle (opaqueWorld (devnet false) acceptingRelay)
                        (request (Some "") "1.5")) =
    Normal {| statusCode := 400;
              body := VObject [("success", VBool false);
                               ("error", VString "Missing transaction data")] |}
  /\ relay_calls (trace (verify (opaqueWorld (devnet false) acceptingRelay)
                                (request (Some "") "1.5"))) = []
  /\ relay_calls (trace (settle (opaqueWorld (devnet false) acceptingRelay)
                                (request (Some "") "1.5"))) = [].
Proof.
  apply (missing_transaction_rejected
           (opaqueWorld (devnet false) acceptingRelay)
           (request (Some "") "1.5")).
  reflexivity.
Defined.

(** C6: when /verify reached the relay's [sign] call and the relay accepted,
    the response is 200 [{isValid:true}] with the payload's network, the
    metadata's amount and recipient as they came, and [parsed] true exactly
    when the legacy or the versioned parser accepted the bytes. *)
Theorem verify_valid_response (w : World) (p : X402PaymentPayload)
  (tx signature : string) :
  In (CallSignTransaction tx) (trace (verify w p)) ->
  signTransaction (koraClient w) tx = Fulfilled signature ->
  exists md,
    metadata p = Some md /\
    completion (verify w p) =
      Normal {| statusCode := 200;
                body := VObject
                  [("isValid", VBool true);
                   ("network", VString (network p));
                   ("amount", VString (amount md));
                   ("recipient", VString (recipient md));
                   ("parsed",
                    VBool (succeeded (Transaction_from w
                                        (Buffer_from_base64 w tx))
                           || succeeded (VersionedTransaction_deserialize w
                                           (Buffer_from_base64 w tx))))] |}.
Proof.
  intros Hin Hok.
  destruct (verify_reaches_relay w p tx Hin) as (Htx & Hne & md & Hmd & Ha).
  exists md. split; [exact Hmd|].
  rewrite (verify_with_metadata w p tx md Htx Hne Hmd).
  unfold afterAmountCheck. rewrite Ha, Hok. reflexivity.
Qed.

Lemma verify_valid_response_witness :
  exists md,
    metadata (request (Some "AQID") "1.5") = Some md /\
    completion (verify (legacyWorld (devnet false) acceptingRelay)
                       (request (Some "AQID") "1.5")) =
      Normal {| statusCode := 200;
                body := VObject [("isValid", VBool true);
                                 ("network", VString "solana-devnet");
                                 ("amount", VString (amount md));
                                 ("recipient", VString (recipient md));
                                 ("parsed", VBool true)] |}.
Proof.
  apply (verify_valid_response
           (legacyWorld (devnet false) acceptingRelay)
           (request (Some "AQID") "1.5") "AQID" "sig1").
  - vm_compute. auto 10.
  - reflexivity.
Defined.

(** ** /settle and /supported *)

(** C7, as the code has it: with a non-empty transaction, a rejected
    [signAndSend] gives the 500 response [{success:false}] with the error's
    message, and a fulfilled one gives the 200 response [{success:true}] with
    the transaction identifier and an explorer link whose cluster is the
    configured NETWORK with the first occurrence of "solana-" replaced by
    nothing; that is the prefix when NETWORK begins with it. *)
Theorem settle_outcome (w : World) (p : X402PaymentPayload) (tx : string) :
  transaction p = Some tx -> nonEmpty tx ->
  match signAndSendTransaction (koraClient w) tx with
  | Rejected e =>
      completion (settle w p) =
        Normal {| statusCode := 500;
                  body := VObject [("success", VBool false);
                                   ("error", VString (message e))] |}
  | Fulfilled signature =>
      completion (settle w p) =
        Normal {| statusCode := 200;
                  body := VObject
                    [("success", VBool true);
                     ("signature", VString signature);
                     ("network", VString (network p));
                     ("explorerUrl",
                      VString ("https://explorer.solana.com/tx/" ++ signature
                               ++ "?cluster="
                               ++ JS.replace "solana-" ""
                                    (NETWORK (config w)))%string)] |}
  end
  /\ forall cluster : string,
       NETWORK (config w) = ("solana-" ++ cluster)%string ->
       JS.replace "solana-" "" (NETWORK (config w)) = cluster.
Proof.
  intros Htx Hne. split.
  - rewrite (settle_with_transaction w p tx Htx Hne).
    destruct (signAndSendTransaction (koraClient w) tx); reflexivity.
  - intros cluster ->. reflexivity.
Qed.

Lemma settle_outcome_witness :
  completion (settle (opaqueWorld (devnet false) acceptingRelay)
                     (request (Some "AQID") "1.5")) =
    Normal {| statusCode := 200;
              body := VObject
                [("success", VBool true);
                 ("signature", VString "5VfYmG");
                 ("network", VString "solana-devnet");
                 ("explorerUrl",
                  VString "https://explorer.solana.com/tx/5VfYmG?cluster=devnet")] |}.
Proof.
  exact (proj1 (settle_outcome
                  (opaqueWorld (devnet false) acceptingRelay)
                  (request (Some "AQID") "1.5") "AQID" eq_refl eq_refl)).
Defined.

(** C7 as stated fails: with NETWORK set to "my-solana-devnet" the name has
    no prefix "solana-" to strip, yet the link's cluster is "my-devnet". *)
Lemma settle_cluster_not_prefix_stripped :
  let w := opaqueWorld (sidechain false) acceptingRelay in
  let p := request (Some "AQID") "1.5" in
  stripPrefix "solana-" (NETWORK (config w)) = "my-solana-devnet" /\
  (exists r, completion (settle w p) = Normal r /\
     field "explorerUrl" (body r) =
       Some (VString "https://explorer.solana.com/tx/5VfYmG?cluster=my-devnet")
     /\ field "explorerUrl" (body r) <>
       Some (VString (explorerUrlByPrefix w "5VfYmG"))).
Proof.
  cbv zeta. split; [reflexivity|].
  eexists. split; [reflexivity|]. split; [reflexivity|].
  vm_compute. discriminate.
Qed.

(** C8: /supported always answers 200 with the configured network, the
    payment scheme "exact" and a list of one token.  In mock mode the fee
    payer is resolved from the configuration, without a call to the relay:
    it is the configured KORA_SIGNER_ADDRESS when one is set (and not
    empty), the mock address otherwise.  Outside mock mode the relay is
    asked, and a rejected query gives "UnknownPayerAddress" instead of
    failing the request. *)
Theorem supported_capabilities (w : World) :
  exists r,
    supported w =
      (if MOCK_MODE (config w) then [] else [CallGetPayerSigner], Normal r) /\
    statusCode r = 200 /\
    field "network" (body r) = Some (VString (NETWORK (config w))) /\
    field "paymentScheme" (body r) = Some (VString "exact") /\
    (exists tokens, field "tokens" (body r) = Some (VArray tokens) /\
                    (1 <= List.length tokens)%nat) /\
    field "feePayer" (body r) =
      Some (VString
        (if MOCK_MODE (config w)
         then match KORA_SIGNER_ADDRESS (config w) with
              | Some (String c s) => String c s
              | Some EmptyString | None =>
                  "MockPayerAddress11111111111111111111111111"
              end
         else match getPayerSigner (koraClient w) with
              | Fulfilled address => address
              | Rejected _ => "UnknownPayerAddress"
              end)).
Proof.
  rewrite supported_eq. eexists. split; [reflexivity|].
  cbn. repeat split.
  - eexists. split; [reflexivity|]. cbn. lia.
  - unfold resolvedFeePayer, or_else.
    destruct (MOCK_MODE (config w)); [|reflexivity].
    destruct (KORA_SIGNER_ADDRESS (config w)) as [[|c s]|]; reflexivity.
Qed.

Lemma supported_capabilities_witness :
  exists r,
    supported (opaqueWorld configuredSigner rejectingRelay) = ([], Normal r) /\
    statusCode r = 200 /\
    field "network" (body r) = Some (VString "solana-devnet") /\
    field "paymentScheme" (body r) = Some (VString "exact") /\
    (exists tokens, field "tokens" (body r) = Some (VArray tokens) /\
                    (1 <= List.length tokens)%nat) /\
    field "feePayer" (body r) =
      Some (VString "7xKXtg2CW87d97TXJSDpbD5jBkheTqA83TZRuJosgAsU").
Proof.
  exact (supported_capabilities (opaqueWorld configuredSigner rejectingRelay)).
Defined.

(** C9: every /verify request gets a response, and its status follows the
    path taken: 400 for each of the three structural failures, 200 for a
    relay rejection (as for an accepted payment).  So among the negative
    responses the status tells a structural failure from a relay
    rejection. *)
Theorem verify_status_separates (w : World) (p : X402PaymentPayload) :
  exists r,
    completion (verify w p) = Normal r /\
    match transaction p with
    | None | Some EmptyString =>
        statusCode r = 400 /\
        body r = VObject [("isValid", VBool false);
                          ("error", VString "Missing transaction data")]
    | Some tx =>
        match metadata p with
        | None =>
            statusCode r = 400 /\
            body r = VObject [("isValid", VBool false);
                              ("error", VString "Missing payment metadata")]
        | Some md =>
            if amountRejected (JS.parseFloat (amount md)) then
              statusCode r = 400 /\
              body r = VObject [("isValid", VBool false);
                                ("error", VString "Invalid payment amount")]
            else
              match signTransaction (koraClient w) tx with
              | Rejected e =>
                  statusCode r = 200 /\
                  field "isValid" (body r) = Some (VBool false) /\
                  field "error" (body r) =
                    Some (VString "Transaction validation failed")
              | Fulfilled _ =>
                  statusCode r = 200 /\
                  field "isValid" (body r) = Some (VBool true)
              end
        end
    end.
Proof.
  destruct (transaction p) as [tx|] eqn:Htx.
  2: { rewrite verify_missing_transaction by now rewrite Htx.
       eexists. split; [reflexivity|]. split; reflexivity. }
  destruct tx as [|c s].
  { rewrite verify_missing_transaction by now rewrite Htx.
    eexists. split; [reflexivity|]. split; reflexivity. }
  set (tx := String c s) in *.
  assert (Hne : nonEmpty tx) by reflexivity.
  destruct (metadata p) as [md|] eqn:Hmd.
  2: { rewrite (verify_missing_metadata w p tx Htx Hne Hmd).
       eexists. split; [reflexivity|]. split; reflexivity. }
  rewrite (verify_with_metadata w p tx md Htx Hne Hmd).
  eexists. split; [reflexivity|]. unfold afterAmountCheck.
  destruct (amountRejected (JS.parseFloat (amount md))).
  - split; reflexivity.
  - destruct (signTransaction (koraClient w) tx) as [sig|e].
    + split; reflexivity.
    + cbn. destruct (MOCK_MODE (config w)); repeat split.
Qed.

(** C10: in the response of a successful /settle the [network] property is
    the payload's network, while the cluster of [explorerUrl] is computed
    from the configured NETWORK; a request for "solana-mainnet" to a server
    configured for "solana-devnet" gets a response naming both. *)
Theorem settle_network_fields :
  (forall (w : World) (p : X402PaymentPayload) (tx signature : string),
     transaction p = Some tx -> nonEmpty tx ->
     signAndSendTransaction (koraClient w) tx = Fulfilled signature ->
     exists r,
       completion (settle w p) = Normal r /\
       statusCode r = 200 /\
       field "network" (body r) = Some (VString (network p)) /\
       field "explorerUrl" (body r) =
         Some (VString
                 ("https://explorer.solana.com/tx/" ++ signature
                  ++ "?cluster="
                  ++ JS.replace "solana-" "" (NETWORK (config w)))%string))
  /\
  (exists (w : World) (p : X402PaymentPayload) (r : Response),
     network p <> NETWORK (config w) /\
     completion (settle w p) = Normal r /\
     field "network" (body r) = Some (VString "solana-mainnet") /\
     field "explorerUrl" (body r) =
       Some (VString "https://explorer.solana.com/tx/5VfYmG?cluster=devnet")).
Proof.
  split.
  - intros w p tx signature Htx Hne Hok.
    rewrite (settle_with_transaction w p tx Htx Hne), Hok.
    eexists. split; [reflexivity|]. repeat split.
  - exists (opaqueWorld (devnet false) acceptingRelay), mainnetRequest.
    eexists. split; [vm_compute; discriminate|]. repeat split.
Qed.

Lemma settle_network_fields_witness :
  exists r,
    completion (settle (opaqueWorld (devnet false) acceptingRelay)
                       mainnetRequest) = Normal r /\
    statusCode r = 200 /\
    field "network" (body r) = Some (VString "solana-mainnet") /\
    field "explorerUrl" (body r) =
      Some (VString "https://explorer.solana.com/tx/5VfYmG?cluster=devnet").
Proof.
  exact (proj1 settle_network_fields
           (opaqueWorld (devnet false) acceptingRelay) mainnetRequest
           "AQID" "5VfYmG" eq_refl eq_refl eq_refl).
Defined.

(** ** More on the amount guard of /verify *)

(** Rounding keeps the sign: a negative operand gives a negative number, a
    negative zero, minus infinity or NaN, and the guard refuses each. *)
Lemma negative_rounding_refused (mx ex : Z) (lx : location) :
  amountRejected (binary_round_aux JS.prec JS.emax true mx ex lx) = true.
Proof.
  unfold binary_round_aux.
  destruct (shr_fexp JS.prec JS.emax mx ex lx) as [mrs' e'].
  destruct (shr_fexp JS.prec JS.emax
              (round_nearest_even (shr_m mrs') (loc_of_shr_record mrs'))
              e' loc_Exact) as [mrs'' e''].
  destruct (shr_m mrs'') as [|m|m]; [reflexivity| |reflexivity].
  destruct (e'' <=? JS.emax - JS.prec); reflexivity.
Qed.

Lemma negative_decimal_refused (m e : Z) :
  amountRejected (JS.roundDecimal true m e) = true.
Proof.
  unfold JS.roundDecimal.
  destruct m as [|p|p]; [reflexivity| |reflexivity].
  destruct (0 <=? e).
  - unfold binary_round.
    destruct (shl_align _ _ _) as [mz ez].
    apply negative_rounding_refused.
  - destruct (SFdiv_core_binary _ _ _ _ _ _) as [[q e'] l].
    apply negative_rounding_refused.
Qed.

Lemma parseFloat_minus_refused (s rest : string) :
  JS.trimStart s = String "-" rest ->
  amountRejected (JS.parseFloat s) = true.
Proof.
  intros Ht. unfold JS.parseFloat. rewrite Ht.
  destruct (JS.unsignedLiteral rest) as [[|m e]|]; cbn [JS.literalValue].
  - reflexivity.
  - apply negative_decimal_refused.
  - reflexivity.
Qed.

Lemma parseFloat_not_a_number (s : string) :
  match JS.trimStart s with
  | EmptyString => True
  | String c _ => canStartNumber c = false
  end ->
  JS.parseFloat s = S754_nan.
Proof.
  unfold JS.parseFloat.
  destruct (JS.trimStart s) as [|c r]; [reflexivity|].
  destruct c as [[] [] [] [] [] [] [] []]; cbv [canStartNumber JS.isDigit
    JS.code N_of_ascii N_of_digits Ascii.eqb Bool.eqb]; cbn; intros H;
    try discriminate H; reflexivity.
Qed.

(** What [verify] answers once the amount guard fires. *)
Lemma verify_amount_refused (w : World) (p : X402PaymentPayload)
  (tx : string) (md : Metadata) :
  transaction p = Some tx -> nonEmpty tx -> metadata p = Some md ->
  amountRejected (JS.parseFloat (amount md)) = true ->
  completion (verify w p) = Normal (structuralError "Invalid payment amount")
  /\ relay_calls (trace (verify w p)) = [].
Proof.
  intros Htx Hne Hmd Ha. split.
  - rewrite (verify_with_metadata w p tx md Htx Hne Hmd).
    unfold completion, afterAmountCheck. cbn [snd]. rewrite Ha. reflexivity.
  - rewrite (verify_relay_calls w p tx md Htx Hne Hmd), Ha. reflexivity.
Qed.

(** X1: an amount whose first character after leading white space is a
    minus sign is refused with 400 "Invalid payment amount", whatever
    follows the sign, and the relay is not called. *)
Theorem verify_refuses_minus_sign (w : World) (p : X402PaymentPayload)
  (tx : string) (md : Metadata) (rest : string) :
  transaction p = Some tx -> nonEmpty tx -> metadata p = Some md ->
  JS.trimStart (amount md) = String "-" rest ->
  completion (verify w p) =
    Normal {| statusCode := 400;
              body := VObject [("isValid", VBool false);
                               ("error", VString "Invalid payment amount")] |}
  /\ relay_calls (trace (verify w p)) = [].
Proof.
  intros Htx Hne Hmd Ht.
  apply (verify_amount_refused w p tx md Htx Hne Hmd).
  exact (parseFloat_minus_refused (amount md) rest Ht).
Qed.

Lemma verify_refuses_minus_sign_witness :
  completion (verify (legacyWorld (devnet false) acceptingRelay)
                     (request (Some "AQID") "  -1e400")) =
    Normal {| statusCode := 400;
              body := VObject [("isValid", VBool false);
                               ("error", VString "Invalid payment amount")] |}
  /\ relay_calls (trace (verify (legacyWorld (devnet false) acceptingRelay)
                                (request (Some "AQID") "  -1e400"))) = [].
Proof.
  apply (verify_refuses_minus_sign
           (legacyWorld (devnet false) acceptingRelay)
           (request (Some "AQID") "  -1e400") "AQID"
           {| endpoint := "/x"; amount := "  -1e400"; recipient := "Rcp1" |}
           "1e400");
    reflexivity.
Defined.

(** X2: an amount that is empty or blank, or whose first character after
    leading white space cannot begin a number (it is not a digit, a sign, the
    point or the I of Infinity), is refused with 400 "Invalid payment
    amount", and the relay is not called. *)
Theorem verify_refuses_non_numeric (w : World) (p : X402PaymentPayload)
  (tx : string) (md : Metadata) :
  transaction p = Some tx -> nonEmpty tx -> metadata p = Some md ->
  match JS.trimStart (amount md) with
  | EmptyString => True
  | String c _ => canStartNumber c = false
  end ->
  completion (verify w p) =
    Normal {| statusCode := 400;
              body := VObject [("isValid", VBool false);
                               ("error", VString "Invalid payment amount")] |}
  /\ relay_calls (trace (verify w p)) = [].
Proof.
  intros Htx Hne Hmd Ht.
  apply (verify_amount_refused w p tx md Htx Hne Hmd).
  rewrite (parseFloat_not_a_number (amount md) Ht). reflexivity.
Qed.

Lemma verify_refuses_non_numeric_witness :
  completion (verify (legacyWorld (devnet false) acceptingRelay)
                     (request (Some "AQID") " $1.50")) =
    Normal {| statusCode := 400;
              body := VObject [("isValid", VBool false);
                               ("error", VString "Invalid payment amount")] |}
  /\ relay_calls (trace (verify (legacyWorld (devnet false) acceptingRelay)
                                (request (Some "AQID") " $1.50"))) = [].
Proof.
  apply (verify_refuses_non_numeric
           (legacyWorld (devnet false) acceptingRelay)
           (request (Some "AQID") " $1.50") "AQID"
           {| endpoint := "/x"; amount := " $1.50"; recipient := "Rcp1" |});
    reflexivity.
Defined.

Lemma digitsValue_zeros (a b : string) :
  allZeros a = true -> allZeros b = true ->
  JS.digitsValue 0 (a ++ b)%string = 0.
Proof.
  intros Ha Hb. induction a as [|c a IH]; cbn in *.
  - induction b as [|c b IHb]; cbn in *; [reflexivity|].
    apply andb_prop in Hb as [Hc Hb]. apply Ascii.eqb_eq in Hc. subst c.
    exact (IHb Hb).
  - apply andb_prop in Ha as [Hc Ha]. apply Ascii.eqb_eq in Hc. subst c.
    exact (IH Ha).
Qed.

(** After the point: the fraction digits read are all 0. *)
Lemma zeroDigits_fraction (s : string) :
  zeroDigits true s = true ->
  exists fp r2, JS.spanDigits s = (fp, r2) /\ allZeros fp = true.
Proof.
  induction s as [|c r IH]; intros H.
  - exists EmptyString, EmptyString. split; reflexivity.
  - destruct c as [[] [] [] [] [] [] [] []]; cbn in H;
      try discriminate H;
      try (exists EmptyString; eexists; split; reflexivity).
    destruct (IH H) as (fp & r2 & Hs & Hz).
    exists (String "0" fp), r2. cbn. rewrite Hs. split; [reflexivity | exact Hz].
Qed.

(** Before the point: the integer digits read are all 0, and so are the
    fraction digits when a point follows them. *)
Lemma zeroDigits_integer (s : string) :
  zeroDigits false s = true ->
  exists ip r1 fp r2,
    JS.spanDigits s = (ip, r1) /\ allZeros ip = true /\
    match r1 with
    | String "." t => JS.spanDigits t
    | _ => (EmptyString, r1)
    end = (fp, r2) /\ allZeros fp = true.
Proof.
  induction s as [|c r IH]; intros H.
  - exists EmptyString, EmptyString, EmptyString, EmptyString.
    repeat split.
  - destruct c as [[] [] [] [] [] [] [] []]; cbn in H;
      try discriminate H;
      try (exists EmptyString; eexists; exists EmptyString; eexists;
           repeat split; reflexivity).
    + destruct (zeroDigits_fraction r H) as (fp & r2 & Hs & Hz).
      exists EmptyString. eexists. exists fp, r2.
      split; [reflexivity|]. split; [reflexivity|].
      split; [exact Hs | exact Hz].
    + destruct (IH H) as (ip & r1 & fp & r2 & Hs & Hz & Hf & Hzf).
      exists (String "0" ip), r1, fp, r2. cbn. rewrite Hs.
      repeat split; assumption.
Qed.

Lemma parseFloat_zero_refused (s : string) :
  zeroAmount (JS.trimStart s) = true ->
  amountRejected (JS.parseFloat s) = true.
Proof.
  unfold JS.parseFloat, zeroAmount.
  destruct (JS.trimStart s) as [|c r]; [discriminate|].
  intros H. apply andb_prop in H as [Hc Hr].
  apply Ascii.eqb_eq in Hc. subst c.
  destruct (zeroDigits_integer r Hr) as (ip & r1 & fp & r2 & Hs & Hz & Hf & Hzf).
  unfold JS.unsignedLiteral.
  cbn [JS.startsWith Ascii.eqb Bool.eqb JS.spanDigits JS.isDigit].
  change (JS.isDigit "0") with true. cbn iota.
  rewrite Hs, Hf.
  change (String "0" ip ++ fp)%string with (String "0" (ip ++ fp)%string).
  cbn [JS.digitsValue JS.literalValue].
  change (10 * 0 + (JS.code "0" - 48)) with 0.
  rewrite (digitsValue_zeros ip fp Hz Hzf). reflexivity.
Qed.

(** X3: an unsigned amount that reads as a zero ("0", "000", "0.00",
    "0 USDC", "0e5": it begins with 0 and has no other digit before the
    first character that is neither a digit nor the first point) is refused
    with 400 "Invalid payment amount", and the relay is not called. *)
Theorem verify_refuses_zero (w : World) (p : X402PaymentPayload)
  (tx : string) (md : Metadata) :
  transaction p = Some tx -> nonEmpty tx -> metadata p = Some md ->
  zeroAmount (JS.trimStart (amount md)) = true ->
  completion (verify w p) =
    Normal {| statusCode := 400;
              body := VObject [("isValid", VBool false);
                               ("error", VString "Invalid payment amount")] |}
  /\ relay_calls (trace (verify w p)) = [].
Proof.
  intros Htx Hne Hmd Hz.
  apply (verify_amount_refused w p tx md Htx Hne Hmd).
  exact (parseFloat_zero_refused (amount md) Hz).
Qed.

Lemma verify_refuses_zero_witness :
  completion (verify (legacyWorld (devnet false) acceptingRelay)
                     (request (Some "AQID") "0.00e9 USDC")) =
    Normal {| statusCode := 400;
              body := VObject [("isValid", VBool false);
                               ("error", VString "Invalid payment amount")] |}
  /\ relay_calls (trace (verify (legacyWorld (devnet false) acceptingRelay)
                                (request (Some "AQID") "0.00e9 USDC"))) = [].
Proof.
  apply (verify_refuses_zero
           (legacyWorld (devnet false) acceptingRelay)
           (request (Some "AQID") "0.00e9 USDC") "AQID"
           {| endpoint := "/x"; amount := "0.00e9 USDC"; recipient := "Rcp1" |});
    reflexivity.
Defined.

(** ** What the handlers call, and what they do not read *)

Lemma verify_relay_calls_cases (w : World) (p : X402PaymentPayload) :
  relay_calls (trace (verify w p)) = [] \/
  exists tx, transaction p = Some tx /\ nonEmpty tx /\
             relay_calls (trace (verify w p)) = [CallSignTransaction tx].
Proof.
  destruct (falsy_cases (transaction p)) as [Hf | (tx & Htx & Hne)].
  - left. rewrite (verify_missing_transaction w p Hf). reflexivity.
  - destruct (metadata p) as [md|] eqn:Hmd.
    + rewrite (verify_relay_calls w p tx md Htx Hne Hmd).
      destruct (amountRejected (JS.parseFloat (amount md))); [now left|].
      right. exists tx. repeat split; assumption.
    + left. rewrite (verify_missing_metadata w p tx Htx Hne Hmd). reflexivity.
Qed.

(** X4: /verify never broadcasts.  Its trace holds no [signAndSend] call
    and no fee-payer query; the only relay call it can make is one [sign],
    on the payload's transaction string as it came. *)
Theorem verify_never_broadcasts (w : World) (p : X402PaymentPayload) :
  (forall tx, ~ In (CallSignAndSendTransaction tx) (trace (verify w p))) /\
  ~ In CallGetPayerSigner (trace (verify w p)) /\
  (relay_calls (trace (verify w p)) = [] \/
   exists tx, transaction p = Some tx /\
              relay_calls (trace (verify w p)) = [CallSignTransaction tx]).
Proof.
  assert (H : forall e, In e (trace (verify w p)) -> is_relay_call e = true ->
                        exists tx, e = CallSignTransaction tx).
  { intros e Hin Hr.
    assert (Hf : In e (relay_calls (trace (verify w p))))
      by (apply filter_In; split; assumption).
    destruct (verify_relay_calls_cases w p) as [E | (tx & _ & _ & E)];
      rewrite E in Hf.
    - destruct Hf.
    - destruct Hf as [<- | []]. eauto. }
  split; [|split].
  - intros tx Hin. destruct (H _ Hin eq_refl) as (tx' & E). discriminate E.
  - intros Hin. destruct (H _ Hin eq_refl) as (tx' & E). discriminate E.
  - destruct (verify_relay_calls_cases w p) as [E | (tx & Htx & _ & E)];
      [now left | right; eauto].
Qed.

(** X5: /settle validates nothing but the presence of the transaction.
    The metadata, the version and the endpoint are at most logged: whatever
    they are, or when the metadata is missing, the response is the same and
    so are the calls besides the console, which are one [signAndSend] on the
    transaction string as it came (none without a transaction): no parser,
    no [parseFloat], no [sign]. *)
Theorem settle_ignores_metadata (w : World) (p : X402PaymentPayload)
  (m : option Metadata) (v e : string) :
  completion (settle w (withMetadata m p)) = completion (settle w p) /\
  completion (settle w (withVersionAndEndpoint v e p)) =
    completion (settle w p) /\
  filter is_outside_call (trace (settle w (withMetadata m p))) =
    filter is_outside_call (trace (settle w p)) /\
  filter is_outside_call (trace (settle w (withVersionAndEndpoint v e p))) =
    filter is_outside_call (trace (settle w p)) /\
  filter is_outside_call (trace (settle w p)) =
    match transaction p with
    | None | Some EmptyString => []
    | Some tx => [CallSignAndSendTransaction tx]
    end.
Proof.
  split; [reflexivity|]. split; [reflexivity|].
  split; [reflexivity|]. split; [reflexivity|].
  destruct (transaction p) as [[|c r]|] eqn:Htx.
  - rewrite settle_missing_transaction by now rewrite Htx. reflexivity.
  - rewrite (settle_with_transaction w p (String c r) Htx eq_refl).
    destruct (signAndSendTransaction (koraClient w) (String c r)); reflexivity.
  - rewrite settle_missing_transaction by now rewrite Htx. reflexivity.
Qed.

(** X6: /verify never consults the configured network, mint or signer
    address: under any configuration with the same mock flag it runs and
    answers the same.  Nor does it read [version] or [metadata.endpoint]. *)
Theorem verify_ignores_configured_network (w : World) (c : Config)
  (p : X402PaymentPayload) (v e : string) :
  MOCK_MODE c = MOCK_MODE (config w) ->
  verify (withConfig c w) p = verify w p /\
  trace (verify w (withVersionAndEndpoint v e p)) = trace (verify w p) /\
  completion (verify w (withVersionAndEndpoint v e p)) =
    completion (verify w p).
Proof.
  intros Hm. split.
  - unfold verify, decodeTransaction, withConfig. cbn [config koraClient
      Buffer_from_base64 Transaction_from VersionedTransaction_deserialize].
    rewrite Hm. reflexivity.
  - unfold verify, withVersionAndEndpoint.
    cbn [transaction metadata network].
    destruct (transaction p) as [[|a r]|]; [split; reflexivity| |split; reflexivity].
    destruct (metadata p) as [md|]; [|split; reflexivity].
    cbn [amount recipient]. split; reflexivity.
Qed.

Lemma verify_ignores_configured_network_witness :
  verify (withConfig (sidechain true)
            (opaqueWorld (devnet true) rejectingRelay))
         (request (Some "AQID") "1.5") =
  verify (opaqueWorld (devnet true) rejectingRelay)
         (request (Some "AQID") "1.5").
Proof.
  exact (proj1 (verify_ignores_configured_network
                  (opaqueWorld (devnet true) rejectingRelay)
                  (sidechain true) (request (Some "AQID") "1.5") "" ""
                  eq_refl)).
Defined.

(** X7: the decision of /verify depends on the transaction string and on
    [metadata.amount] only.  Two requests that agree on these (and on
    whether metadata is present) make the same calls and get the same status
    and the same [isValid]; [network], [version], [endpoint] and [recipient]
    are never checked. *)
Theorem verify_decides_on_transaction_and_amount (w : World)
  (p q : X402PaymentPayload) :
  transaction p = transaction q ->
  option_map amount (metadata p) = option_map amount (metadata q) ->
  trace (verify w p) = trace (verify w q) /\
  exists r s,
    completion (verify w p) = Normal r /\
    completion (verify w q) = Normal s /\
    statusCode r = statusCode s /\
    field "isValid" (body r) = field "isValid" (body s) /\
    field "error" (body r) = field "error" (body s).
Proof.
  intros Ht Ha.
  destruct (falsy_cases (transaction p)) as [Hf | (tx & Htx & Hne)].
  - rewrite (verify_missing_transaction w p Hf).
    rewrite Ht in Hf. rewrite (verify_missing_transaction w q Hf).
    split; [reflexivity|]. do 2 eexists. repeat split.
  - assert (Htq : transaction q = Some tx) by (rewrite <- Ht; exact Htx).
    destruct (metadata p) as [md|] eqn:Hp, (metadata q) as [md'|] eqn:Hq;
      try discriminate Ha.
    + injection Ha as Ha.
      rewrite (verify_with_metadata w p tx md Htx Hne Hp).
      rewrite (verify_with_metadata w q tx md' Htq Hne Hq).
      unfold afterAmountCheck. rewrite <- Ha.
      destruct (amountRejected (JS.parseFloat (amount md))).
      * split; [reflexivity|]. do 2 eexists. repeat split.
      * destruct (signTransaction (koraClient w) tx).
        -- split; [reflexivity|]. do 2 eexists. repeat split.
        -- split; [reflexivity|]. do 2 eexists. repeat split.
    + rewrite (verify_missing_metadata w p tx Htx Hne Hp).
      rewrite (verify_missing_metadata w q tx Htq Hne Hq).
      split; [reflexivity|]. do 2 eexists. repeat split.
Qed.

Lemma verify_decides_on_transaction_and_amount_witness :
  trace (verify (legacyWorld (devnet false) acceptingRelay)
                (request (Some "AQID") "1.5")) =
  trace (verify (legacyWorld (devnet false) acceptingRelay)
                {| version := "9"; network := "ethereum";
                   transaction := Some "AQID";
                   metadata := Some {| endpoint := ""; amount := "1.5";
                                       recipient := "someone else" |} |}).
Proof.
  exact (proj1 (verify_decides_on_transaction_and_amount
                  (legacyWorld (devnet false) acceptingRelay)
                  (request (Some "AQID") "1.5")
                  {| version := "9"; network := "ethereum";
                     transaction := Some "AQID";
                     metadata := Some {| endpoint := ""; amount := "1.5";
                                         recipient := "someone else" |} |}
                  eq_refl eq_refl)).
Defined.

(** X8: /settle does not repeat the checks of /verify.  A request with a
    transaction that /verify answers with 400 (no metadata, or an amount the
    guard refuses) is still handed to the relay's [signAndSend] by
    /settle. *)
Theorem settle_broadcasts_what_verify_refuses (w : World)
  (p : X402PaymentPayload) (tx : string) (r : Response) :
  transaction p = Some tx -> nonEmpty tx ->
  completion (verify w p) = Normal r -> statusCode r = 400 ->
  relay_calls (trace (verify w p)) = [] /\
  relay_calls (trace (settle w p)) = [CallSignAndSendTransaction tx].
Proof.
  intros Htx Hne Hr Hs. split.
  - destruct (metadata p) as [md|] eqn:Hmd.
    + rewrite (verify_relay_calls w p tx md Htx Hne Hmd).
      rewrite (verify_with_metadata w p tx md Htx Hne Hmd) in Hr.
      unfold completion, afterAmountCheck in Hr. cbn [snd] in Hr.
      destruct (amountRejected (JS.parseFloat (amount md))); [reflexivity|].
      destruct (signTransaction (koraClient w) tx);
        injection Hr as <-; discriminate Hs.
    + rewrite (verify_missing_metadata w p tx Htx Hne Hmd). reflexivity.
  - rewrite (settle_with_transaction w p tx Htx Hne).
    destruct (signAndSendTransaction (koraClient w) tx); reflexivity.
Qed.

Lemma settle_broadcasts_what_verify_refuses_witness :
  relay_calls (trace (verify (opaqueWorld (devnet false) acceptingRelay)
                             (request (Some "AQID") "free"))) = [] /\
  relay_calls (trace (settle (opaqueWorld (devnet false) acceptingRelay)
                             (request (Some "AQID") "free"))) =
    [CallSignAndSendTransaction "AQID"].
Proof.
  apply (settle_broadcasts_what_verify_refuses
           (opaqueWorld (devnet false) acceptingRelay)
           (request (Some "AQID") "free") "AQID"
           (structuralError "Invalid payment amount"));
    reflexivity.
Defined.

(** ** All routes *)

Lemma payment_eq (w : World) (now : N) (randomTail : string)
  (b : Payment.Body) :
  payment w now randomTail b =
  if truthy (Payment.recipient b) && truthy (Payment.amount b) then
    ([Console Log; Console Log],
     Normal (json res
       (VObject [("success", VBool true);
                 ("signature",
                  VString ("Mock" ++ decimal now ++ randomTail)%string);
                 ("network", VString (NETWORK (config w)));
                 ("amount", Payment.amount b);
                 ("recipient", Payment.recipient b);
                 ("memo", if truthy (Payment.memo b)
                          then Payment.memo b else VString "");
                 ("explorerUrl",
                  VString (explorerUrl w
                             ("Mock" ++ decimal now ++ randomTail)%string))])))
  else
    ([Console Log],
     Normal {| statusCode := 400;
               body := VObject [("success", VBool false);
                                ("error",
                                 VString "Missing recipient or amount")] |}).
Proof.
  unfold payment.
  destruct (truthy (Payment.recipient b)), (truthy (Payment.amount b));
    reflexivity.
Qed.

(** X9: on a request body of the declared shape ([transaction] a string
    when present, [metadata] an object of strings when present; for
    /payment an object) no handler lets an exception escape: every run ends
    with a response.  On such bodies /verify and /payment answer 200 or 400
    (the outer [catch] of /verify is not reached), /supported and /health
    always 200, and /settle answers 500 only after the relay rejected
    [signAndSend]. *)
Theorem handlers_always_respond (w : World) (p : X402PaymentPayload)
  (now : N) (randomTail : string) (b : Payment.Body) :
  (exists r, completion (verify w p) = Normal r /\
             (statusCode r = 200 \/ statusCode r = 400)) /\
  (exists r, completion (settle w p) = Normal r /\
             (statusCode r = 200 \/ statusCode r = 400 \/
              statusCode r = 500 /\
              exists tx e, transaction p = Some tx /\
                signAndSendTransaction (koraClient w) tx = Rejected e)) /\
  (exists r, completion (supported w) = Normal r /\ statusCode r = 200) /\
  (exists r, completion (health w) = Normal r /\ statusCode r = 200) /\
  (exists r, completion (payment w now randomTail b) = Normal r /\
             (statusCode r = 200 \/ statusCode r = 400)).
Proof.
  repeat split.
  - destruct (falsy_cases (transaction p)) as [Hf | (tx & Htx & Hne)].
    + rewrite (verify_missing_transaction w p Hf). eexists. split;
        [reflexivity | now right].
    + destruct (metadata p) as [md|] eqn:Hmd.
      * rewrite (verify_with_metadata w p tx md Htx Hne Hmd).
        eexists. split; [reflexivity|]. unfold afterAmountCheck.
        destruct (amountRejected (JS.parseFloat (amount md)));
          [now right|].
        destruct (signTransaction (koraClient w) tx); now left.
      * rewrite (verify_missing_metadata w p tx Htx Hne Hmd).
        eexists. split; [reflexivity | now right].
  - destruct (falsy_cases (transaction p)) as [Hf | (tx & Htx & Hne)].
    + rewrite (settle_missing_transaction w p Hf). eexists. split;
        [reflexivity | right; now left].
    + rewrite (settle_with_transaction w p tx Htx Hne).
      destruct (signAndSendTransaction (koraClient w) tx) as [sig|e] eqn:Hs.
      * eexists. split; [reflexivity | now left].
      * eexists. split; [reflexivity|]. right. right.
        split; [reflexivity|]. exists tx, e. split; assumption.
  - rewrite supported_eq. eexists. split; reflexivity.
  - eexists. split; reflexivity.
  - rewrite payment_eq.
    destruct (truthy (Payment.recipient b) && truthy (Payment.amount b));
      eexists; (split; [reflexivity|]); [now left | now right].
Qed.

(** X10: POST /payment without a usable recipient or amount (absent, an
    empty string, zero or false) is answered with 400 "Missing recipient or
    amount" and nothing is done but one [console.log]. *)
Theorem payment_requires_recipient_and_amount (w : World) (now : N)
  (randomTail : string) (b : Payment.Body) :
  truthy (Payment.recipient b) && truthy (Payment.amount b) = false ->
  payment w now randomTail b =
  ([Console Log],
   Normal {| statusCode := 400;
             body := VObject [("success", VBool false);
                              ("error",
                               VString "Missing recipient or amount")] |}).
Proof.
  intros H. rewrite payment_eq, H. reflexivity.
Qed.

Lemma payment_requires_recipient_and_amount_witness :
  payment (opaqueWorld (devnet false) rejectingRelay) 1700000000123 "k3j9x"
          {| Payment.recipient := VString "Rcp1";
             Payment.amount := VNumber 0;
             Payment.memo := VUndefined |} =
  ([Console Log],
   Normal {| statusCode := 400;
             body := VObject [("success", VBool false);
                              ("error",
                               VString "Missing recipient or amount")] |}).
Proof.
  apply (payment_requires_recipient_and_amount
           (opaqueWorld (devnet false) rejectingRelay) 1700000000123 "k3j9x"
           {| Payment.recipient := VString "Rcp1";
              Payment.amount := VNumber 0;
              Payment.memo := VUndefined |}).
  reflexivity.
Defined.

(** X11: POST /payment with a usable recipient and amount always reports
    success, and it does so without calling the relay, a parser or anything
    else but the console.  The signature is "Mock", the time in decimal and
    the random tail; the explorer link carries that same signature and the
    cluster of the configured NETWORK; [network] is the configured one; the
    amount and the recipient come back as sent; [memo] is "" when none was
    given. *)
Theorem payment_confirms_without_relay (w : World) (now : N)
  (randomTail : string) (b : Payment.Body) :
  truthy (Payment.recipient b) = true ->
  truthy (Payment.amount b) = true ->
  exists r,
    payment w now randomTail b = ([Console Log; Console Log], Normal r) /\
    statusCode r = 200 /\
    field "success" (body r) = Some (VBool true) /\
    field "signature" (body r) =
      Some (VString ("Mock" ++ decimal now ++ randomTail)%string) /\
    field "explorerUrl" (body r) =
      Some (VString
              ("https://explorer.solana.com/tx/"
               ++ ("Mock" ++ decimal now ++ randomTail)
               ++ "?cluster="
               ++ JS.replace "solana-" "" (NETWORK (config w)))%string) /\
    field "network" (body r) = Some (VString (NETWORK (config w))) /\
    field "amount" (body r) = Some (serialize (Payment.amount b)) /\
    field "recipient" (body r) = Some (serialize (Payment.recipient b)) /\
    field "memo" (body r) =
      Some (if truthy (Payment.memo b)
            then serialize (Payment.memo b) else VString "").
Proof.
  intros Hr Ha. rewrite payment_eq, Hr, Ha. cbn [andb].
  eexists. split; [reflexivity|].
  destruct b as [rc am mm]. cbn [Payment.recipient Payment.amount
    Payment.memo] in *.
  destruct (truthy mm) eqn:Hm;
    destruct rc; try discriminate Hr; destruct am; try discriminate Ha;
    destruct mm; try discriminate Hm; repeat split.
Qed.

Lemma payment_confirms_without_relay_witness :
  exists r,
    payment (opaqueWorld (devnet false) rejectingRelay) 1700000000123 "k3j9x"
            {| Payment.recipient := VString "Rcp1";
               Payment.amount := VString "1.5";
               Payment.memo := VUndefined |}
    = ([Console Log; Console Log], Normal r) /\
    statusCode r = 200 /\
    field "success" (body r) = Some (VBool true) /\
    field "signature" (body r) = Some (VString "Mock1700000000123k3j9x") /\
    field "explorerUrl" (body r) =
      Some (VString
        "https://explorer.solana.com/tx/Mock1700000000123k3j9x?cluster=devnet")
    /\ field "network" (body r) = Some (VString "solana-devnet") /\
    field "amount" (body r) = Some (VString "1.5") /\
    field "recipient" (body r) = Some (VString "Rcp1") /\
    field "memo" (body r) = Some (VString "").
Proof.
  apply (payment_confirms_without_relay
           (opaqueWorld (devnet false) rejectingRelay) 1700000000123 "k3j9x"
           {| Payment.recipient := VString "Rcp1";
              Payment.amount := VString "1.5";
              Payment.memo := VUndefined |});
    reflexivity.
Defined.

(** X12: /health and /supported describe the same server: both report the
    configured NETWORK, and /supported asks the relay for the fee payer
    exactly when /health reports [mockMode:false].  /health itself calls
    nothing. *)
Theorem health_agrees_with_supported (w : World) :
  exists h s,
    health w = ([], Normal h) /\
    completion (supported w) = Normal s /\
    field "network" (body h) = Some (VString (NETWORK (config w))) /\
    field "network" (body s) = field "network" (body h) /\
    (field "mockMode" (body h) = Some (VBool false) <->
     In CallGetPayerSigner (trace (supported w))).
Proof.
  rewrite supported_eq. do 2 eexists.
  split; [reflexivity|]. split; [reflexivity|].
  split; [reflexivity|]. split; [reflexivity|].
  cbn. destruct (MOCK_MODE (config w)); cbn; split; intros H;
    try discriminate H; auto.
  destruct H.
Qed.

(** X13: a /verify response carries a [details] property only on a server
    whose MOCK_MODE variable is exactly the string "true" (not "TRUE", "1"
    or unset), and then only for a relay rejection, whose message it is. *)
Theorem details_need_MOCK_MODE_true
  (env_network env_mint env_mock env_signer : option string)
  (w : World) (p : X402PaymentPayload) (r : Response) (d : value) :
  config w = config_of_env env_network env_mint env_mock env_signer ->
  completion (verify w p) = Normal r ->
  field "details" (body r) = Some d ->
  env_mock = Some "true" /\
  exists tx e, transaction p = Some tx /\
               signTransaction (koraClient w) tx = Rejected e /\
               d = VString (message e).
Proof.
  intros Hc Hr Hd.
  assert (H : MOCK_MODE (config w) = true /\
              exists tx e, transaction p = Some tx /\
                signTransaction (koraClient w) tx = Rejected e /\
                d = VString (message e)).
  { destruct (falsy_cases (transaction p)) as [Hf | (tx & Htx & Hne)].
    - rewrite (verify_missing_transaction w p Hf) in Hr.
      injection Hr as <-. discriminate Hd.
    - destruct (metadata p) as [md|] eqn:Hmd.
      + rewrite (verify_with_metadata w p tx md Htx Hne Hmd) in Hr.
        unfold completion, afterAmountCheck in Hr. cbn [snd] in Hr.
        destruct (amountRejected (JS.parseFloat (amount md)));
          [injection Hr as <-; discriminate Hd|].
        destruct (signTransaction (koraClient w) tx) as [sig|e] eqn:Hs;
          [injection Hr as <-; discriminate Hd|].
        injection Hr as <-. cbn in Hd.
        destruct (MOCK_MODE (config w)); [|discriminate Hd].
        injection Hd as <-. split; [reflexivity|]. exists tx, e. auto.
      + rewrite (verify_missing_metadata w p tx Htx Hne Hmd) in Hr.
        injection Hr as <-. discriminate Hd. }
  destruct H as [Hm Hrest]. split; [|exact Hrest].
  rewrite Hc in Hm. cbn in Hm.
  destruct env_mock as [m|]; [|discriminate Hm].
  apply String.eqb_eq in Hm. now subst m.
Qed.

Lemma details_need_MOCK_MODE_true_witness :
  Some "true" = Some "true" /\
  exists tx e,
    transaction (request (Some "AQID") "1.5") = Some tx /\
    signTransaction
      (koraClient (opaqueWorld (config_of_env None None (Some "true") None)
                               rejectingRelay)) tx = Rejected e /\
    VString "insufficient funds" = VString (message e).
Proof.
  apply (details_need_MOCK_MODE_true None None (Some "true") None
           (opaqueWorld (config_of_env None None (Some "true") None)
                        rejectingRelay)
           (request (Some "AQID") "1.5")
           (relayRejection true {| message := "insufficient funds" |})
           (VString "insufficient funds"));
    reflexivity.
Defined.

(** ** The cluster of the explorer link *)

Lemma startsWith_Some (p s rest : string) :
  JS.startsWith p s = Some rest <-> s = (p ++ rest)%string.
Proof.
  revert s. induction p as [|a p IH]; intros s; cbn.
  - split; [intros [= ->]; reflexivity | intros ->; reflexivity].
  - destruct s as [|b s]; [split; discriminate|].
    destruct (Ascii.eqb_spec a b) as [->|Hab].
    + rewrite IH. split; [intros ->; reflexivity | intros [= ->]; reflexivity].
    + split; [discriminate | intros [= E _]; now elim Hab].
Qed.

(** [replace] removes the first occurrence of the pattern, or leaves a
    string without occurrence as it is. *)
Lemma replace_first_occurrence (p r s : string) :
  ((forall a b, s <> (a ++ p ++ b)%string) /\ JS.replace p r s = s) \/
  (exists a b,
     s = (a ++ p ++ b)%string /\
     JS.replace p r s = (a ++ r ++ b)%string /\
     forall a' b', s = (a' ++ p ++ b')%string ->
                   (String.length a <= String.length a')%nat).
Proof.
  induction s as [|c s IH].
  - cbn. destruct (JS.startsWith p "") as [rest|] eqn:Hs.
    + right. exists EmptyString, rest. apply startsWith_Some in Hs.
      repeat split; [exact Hs | intros; cbn; lia].
    + left. split; [|reflexivity]. intros [|x a] b E; [|discriminate E].
      cbn in E. apply startsWith_Some in E. congruence.
  - cbn [JS.replace]. destruct (JS.startsWith p (String c s)) as [rest|] eqn:Hs.
    + right. exists EmptyString, rest. apply startsWith_Some in Hs.
      repeat split; [exact Hs | intros; cbn; lia].
    + destruct IH as [[Hno Heq] | (a & b & Hab & Heq & Hmin)].
      * left. split; [|now rewrite Heq].
        intros [|x a] b E.
        -- cbn in E. apply startsWith_Some in E. congruence.
        -- cbn in E. injection E as _ E. exact (Hno a b E).
      * right. exists (String c a), b. cbn. rewrite Heq, Hab.
        repeat split. intros [|x a'] b' E.
        -- cbn in E. rewrite <- Hab in E. apply startsWith_Some in E.
           congruence.
        -- cbn in E. injection E as _ E. rewrite <- Hab in E.
           cbn. apply le_n_S. exact (Hmin a' b' E).
Qed.

(** X14: the cluster in the explorer link of /settle and /payment is the
    configured NETWORK with its first occurrence of "solana-" cut out,
    wherever that is, and NETWORK itself when "solana-" does not occur in
    it. *)
Theorem explorer_cluster (w : World) (signature : string) :
  exists cluster,
    explorerUrl w signature =
      ("https://explorer.solana.com/tx/" ++ signature ++ "?cluster="
         ++ cluster)%string /\
    (((forall a b, NETWORK (config w) <> (a ++ "solana-" ++ b)%string) /\
      cluster = NETWORK (config w))
     \/
     exists a b,
       NETWORK (config w) = (a ++ "solana-" ++ b)%string /\
       cluster = (a ++ b)%string /\
       forall a' b', NETWORK (config w) = (a' ++ "solana-" ++ b')%string ->
                     (String.length a <= String.length a')%nat).
Proof.
  exists (JS.replace "solana-" "" (NETWORK (config w))).
  split; [reflexivity|].
  destruct (replace_first_occurrence "solana-" "" (NETWORK (config w)))
    as [[Hno Heq] | (a & b & Hab & Heq & Hmin)].
  - left. split; assumption.
  - right. exists a, b. repeat split; assumption.
Qed.

(** ** Defaults of the configuration *)

Lemma or_else_not_blank (a : option string) (b : string) :
  b <> EmptyString -> or_else a b <> EmptyString.
Proof.
  intros Hb. destruct a as [[|c s]|]; cbn; [exact Hb | discriminate | exact Hb].
Qed.

(** X15: an unset or empty environment variable falls back to its default,
    so a server configured from the environment never advertises an empty
    network or an empty token mint on /supported; and with MOCK_MODE "true"
    it advertises a non-empty fee payer without calling the relay. *)
Theorem supported_never_blank
  (env_network env_mint env_mock env_signer : option string) (w : World) :
  config w = config_of_env env_network env_mint env_mock env_signer ->
  exists r net mint payer,
    completion (supported w) = Normal r /\
    field "network" (body r) = Some (VString net) /\ net <> EmptyString /\
    field "tokens" (body r) =
      Some (VArray [VObject [("mint", VString mint);
                             ("symbol", VString "USDC");
                             ("decimals", VNumber 6)]]) /\
    mint <> EmptyString /\
    field "feePayer" (body r) = Some (VString payer) /\
    (env_mock = Some "true" ->
     payer <> EmptyString /\ trace (supported w) = []).
Proof.
  intros Hc. rewrite supported_eq. unfold resolvedFeePayer. rewrite Hc.
  do 4 eexists. split; [reflexivity|].
  split; [reflexivity|]. split; [apply or_else_not_blank; discriminate|].
  split; [reflexivity|]. split; [apply or_else_not_blank; discriminate|].
  split; [reflexivity|].
  intros ->. cbn. split; [apply or_else_not_blank; discriminate | reflexivity].
Qed.

Lemma supported_never_blank_witness :
  exists r net mint payer,
    completion (supported
                  (opaqueWorld (config_of_env (Some "") None (Some "true")
                                              (Some ""))
                               rejectingRelay)) = Normal r /\
    field "network" (body r) = Some (VString net) /\ net <> EmptyString /\
    field "tokens" (body r) =
      Some (VArray [VObject [("mint", VString mint);
                             ("symbol", VString "USDC");
                             ("decimals", VNumber 6)]]) /\
    mint <> EmptyString /\
    field "feePayer" (body r) = Some (VString payer) /\
    (Some "true" = Some "true" ->
     payer <> EmptyString /\
     trace (supported
              (opaqueWorld (config_of_env (Some "") None (Some "true")
                                          (Some ""))
                           rejectingRelay)) = []).
Proof.
  apply (supported_never_blank (Some "") None (Some "true") (Some "")
           (opaqueWorld (config_of_env (Some "") None (Some "true") (Some ""))
                        rejectingRelay)).
  reflexivity.
Defined.

(** ** Amounts the guard lets through *)

Lemma digits2_pos_bounds (p : positive) :
  2 ^ (Zpos (digits2_pos p) - 1) <= Zpos p < 2 ^ Zpos (digits2_pos p).
Proof.
  induction p as [p IH|p IH|]; cbn [digits2_pos].
  - rewrite Pos2Z.inj_succ.
    replace (Z.succ (Zpos (digits2_pos p)) - 1)
      with (Z.succ (Zpos (digits2_pos p) - 1)) by lia.
    rewrite !Z.pow_succ_r by lia. lia.
  - rewrite Pos2Z.inj_succ.
    replace (Z.succ (Zpos (digits2_pos p)) - 1)
      with (Z.succ (Zpos (digits2_pos p) - 1)) by lia.
    rewrite !Z.pow_succ_r by lia. lia.
  - cbn. lia.
Qed.

(** One shift to the right of a mantissa of two digits or more leaves a
    positive mantissa with one digit less. *)
Lemma shr_1_positive (mrs : shr_record) (p : positive) :
  shr_m mrs = Zpos p -> 1 < Zpos (digits2_pos p) ->
  exists q, shr_m (shr_1 mrs) = Zpos q /\
            Zpos (digits2_pos q) = Zpos (digits2_pos p) - 1.
Proof.
  destruct mrs as [m r s]. cbn [shr_m]. intros -> Hd.
  destruct p as [p|p|]; cbn [digits2_pos] in *.
  - exists p. split; [reflexivity | rewrite Pos2Z.inj_succ; lia].
  - exists p. split; [reflexivity | rewrite Pos2Z.inj_succ; lia].
  - lia.
Qed.

Lemma iter_shr_1_positive (n : positive) :
  forall (mrs : shr_record) (p : positive),
    shr_m mrs = Zpos p -> Zpos n < Zpos (digits2_pos p) ->
    exists q, shr_m (SpecFloat.iter_pos shr_1 n mrs) = Zpos q /\
              Zpos (digits2_pos q) = Zpos (digits2_pos p) - Zpos n.
Proof.
  induction n as [n IH|n IH|]; intros mrs p Hm Hd; cbn [SpecFloat.iter_pos].
  - destruct (shr_1_positive mrs p Hm ltac:(lia)) as (q1 & H1 & D1).
    destruct (IH _ q1 H1 ltac:(lia)) as (q2 & H2 & D2).
    destruct (IH _ q2 H2 ltac:(lia)) as (q3 & H3 & D3).
    exists q3. split; [exact H3 | lia].
  - destruct (IH _ p Hm ltac:(lia)) as (q2 & H2 & D2).
    destruct (IH _ q2 H2 ltac:(lia)) as (q3 & H3 & D3).
    exists q3. split; [exact H3 | lia].
  - destruct (shr_1_positive mrs p Hm ltac:(lia)) as (q1 & H1 & D1).
    exists q1. split; [exact H1 | lia].
Qed.

(** Aligning a positive mantissa on its exponent, at an exponent that is
    not below the smallest one, keeps it positive. *)
Lemma shr_fexp_positive (m : positive) (e : Z) (l : location) :
  -1074 <= e ->
  exists q, shr_m (fst (shr_fexp JS.prec JS.emax (Zpos m) e l)) = Zpos q /\
            -1074 <= snd (shr_fexp JS.prec JS.emax (Zpos m) e l).
Proof.
  intros He. unfold shr_fexp, shr.
  assert (Hrec : shr_m (shr_record_of_loc (Zpos m) l) = Zpos m)
    by (destruct l as [|[]]; reflexivity).
  destruct (fexp JS.prec JS.emax (Zdigits2 (Zpos m) + e) - e) as [|n|n] eqn:Hn;
    cbn [fst snd]; try (exists m; split; [exact Hrec | exact He]).
  assert (Hlt : Zpos n < Zpos (digits2_pos m)).
  { rewrite <- Hn. unfold fexp, emin, JS.prec, JS.emax. cbn [Zdigits2]. lia. }
  destruct (iter_shr_1_positive n _ m Hrec Hlt) as (q & Hq & _).
  exists q. split; [exact Hq | lia].
Qed.

(** Rounding a positive mantissa at such an exponent gives a positive
    number or plus infinity: the guard lets it through. *)
Lemma positive_rounding_accepted (m : positive) (e : Z) (l : location) :
  -1074 <= e ->
  amountRejected (binary_round_aux JS.prec JS.emax false (Zpos m) e l) = false.
Proof.
  intros He. unfold binary_round_aux.
  destruct (shr_fexp_positive m e l He) as (q & Hq & He').
  destruct (shr_fexp JS.prec JS.emax (Zpos m) e l) as [mrs' e'].
  cbn [fst snd] in Hq, He'. rewrite Hq.
  assert (Hr : exists q', round_nearest_even (Zpos q) (loc_of_shr_record mrs')
                          = Zpos q').
  { unfold round_nearest_even.
    destruct (loc_of_shr_record mrs') as [|[]]; eauto.
    - destruct (Z.even (Zpos q)); eauto.
      exists (q + 1)%positive. reflexivity.
    - exists (q + 1)%positive. reflexivity. }
  destruct Hr as (q' & ->).
  destruct (shr_fexp_positive q' e' loc_Exact He') as (q'' & Hq'' & _).
  destruct (shr_fexp JS.prec JS.emax (Zpos q') e' loc_Exact) as [mrs'' e''].
  cbn [fst] in Hq''. rewrite Hq''.
  destruct (e'' <=? JS.emax - JS.prec); reflexivity.
Qed.

Lemma positive_decimal_accepted (m e : Z) :
  0 < m -> -323 <= e ->
  amountRejected (JS.roundDecimal false m e) = false.
Proof.
  intros Hm He. destruct m as [|p|p]; try lia. unfold JS.roundDecimal.
  destruct (0 <=? e) eqn:Hsign.
  - unfold binary_round.
    destruct (shl_align _ _ _) as [mz ez] eqn:Hs.
    apply positive_rounding_accepted.
    unfold shl_align in Hs.
    assert (Hf : forall x, -1074 <= fexp JS.prec JS.emax x)
      by (intros x; unfold fexp, emin, JS.prec, JS.emax; lia).
    destruct (fexp JS.prec JS.emax _ - 0) eqn:Hd; injection Hs as _ <-;
      try lia.
    apply Hf.
  - apply Z.leb_gt in Hsign.
    assert (Hd : 0 < 10 ^ (- e)) by (apply Z.pow_pos_nonneg; lia).
    assert (Hk : 10 ^ (- e) < 2 ^ 1074).
    { apply Z.le_lt_trans with (10 ^ 323).
      - apply Z.pow_le_mono_r; lia.
      - vm_compute. reflexivity. }
    destruct (10 ^ (- e)) as [|d|d]; try lia.
    unfold SFdiv_core_binary. cbn [Zdigits2].
    pose proof (digits2_pos_bounds p) as Bp.
    pose proof (digits2_pos_bounds d) as Bd.
    set (D1 := Zpos (digits2_pos p)) in *.
    set (D2 := Zpos (digits2_pos d)) in *.
    set (e' := Z.min (fexp JS.prec JS.emax (D1 + 0 - (D2 + 0))) (0 - 0)).
    assert (He' : -1074 <= e' <= 0)
      by (unfold e', fexp, emin, JS.prec, JS.emax; lia).
    assert (Hcase : 1074 <= - e' \/ D2 + 53 - D1 <= - e')
      by (unfold e', fexp, emin, JS.prec, JS.emax; lia).
    replace (0 - 0 - e') with (- e') by lia.
    assert (Hm' : match - e' with
                  | Z.pos _ => Z.shiftl (Z.pos p) (- e')
                  | 0 => Z.pos p
                  | Z.neg _ => 0
                  end = Zpos p * 2 ^ (- e')).
    { destruct (- e') as [|n|n] eqn:Hs.
      - rewrite Z.pow_0_r. lia.
      - apply Z.shiftl_mul_pow2. lia.
      - lia. }
    rewrite Hm'.
    assert (Hle : Zpos d <= Zpos p * 2 ^ (- e')).
    { assert (H2 : 0 < 2 ^ (- e')) by (apply Z.pow_pos_nonneg; lia).
      destruct Hcase as [Hc | Hc].
      - assert (2 ^ 1074 <= 2 ^ (- e')) by (apply Z.pow_le_mono_r; lia).
        nia.
      - assert (H3 : 2 ^ D2 <= 2 ^ (D1 - 1 + - e'))
          by (apply Z.pow_le_mono_r; lia).
        rewrite Z.pow_add_r in H3 by (unfold D1; lia).
        nia. }
    pose proof (Z.div_str_pos (Zpos p * 2 ^ (- e')) (Zpos d)
                  (conj (Pos2Z.is_pos d) Hle)) as Hq.
    unfold Z.div in Hq.
    destruct (Z.div_eucl (Zpos p * 2 ^ (- e')) (Zpos d)) as [q r].
    cbn [fst] in Hq. destruct q as [|q|q]; try lia.
    apply positive_rounding_accepted. lia.
Qed.

(** Without a sign, or after a plus sign, the value is that of the
    literal read. *)
Lemma parseFloat_unsigned (s u : string) (l : JS.literal) :
  JS.trimStart s = u \/ JS.trimStart s = String "+" u ->
  JS.unsignedLiteral u = Some l ->
  JS.parseFloat s = JS.literalValue false l.
Proof.
  intros [Ht | Ht] Hl; unfold JS.parseFloat; rewrite Ht.
  - destruct u as [|c r]; [discriminate Hl|].
    destruct c as [[] [] [] [] [] [] [] []];
      try (cbn in Hl; discriminate Hl);
      cbv beta iota zeta; rewrite Hl; reflexivity.
  - cbv beta iota zeta. rewrite Hl. reflexivity.
Qed.

(** X16: the guard lets ordinary amounts through.  When the amount, after
    leading white space and an optional plus sign, reads as the decimal
    [m * 10^e] with [m > 0] and [e >= -323] ("1.5" is [15 * 10^-1],
    "250 USDC" is [250 * 10^0]), it is not refused: /verify calls the
    relay's [sign] on the transaction and answers with status 200. *)
Theorem verify_accepts_positive_decimal (w : World) (p : X402PaymentPayload)
  (tx : string) (md : Metadata) (u : string) (m e : Z) :
  transaction p = Some tx -> nonEmpty tx -> metadata p = Some md ->
  JS.trimStart (amount md) = u \/ JS.trimStart (amount md) = String "+" u ->
  JS.unsignedLiteral u = Some (JS.LitDecimal m e) ->
  0 < m -> -323 <= e ->
  relay_calls (trace (verify w p)) = [CallSignTransaction tx] /\
  exists r, completion (verify w p) = Normal r /\ statusCode r = 200.
Proof.
  intros Htx Hne Hmd Ht Hl Hm He.
  assert (Ha : amountRejected (JS.parseFloat (amount md)) = false).
  { rewrite (parseFloat_unsigned (amount md) u _ Ht Hl).
    exact (positive_decimal_accepted m e Hm He). }
  split.
  - rewrite (verify_relay_calls w p tx md Htx Hne Hmd), Ha. reflexivity.
  - rewrite (verify_with_metadata w p tx md Htx Hne Hmd).
    unfold completion, afterAmountCheck. cbn [snd]. rewrite Ha.
    destruct (signTransaction (koraClient w) tx);
      eexists; split; reflexivity.
Qed.

Lemma verify_accepts_positive_decimal_witness :
  relay_calls (trace (verify (opaqueWorld (devnet false) rejectingRelay)
                             (request (Some "AQID") " +1.5 USDC"))) =
    [CallSignTransaction "AQID"] /\
  exists r,
    completion (verify (opaqueWorld (devnet false) rejectingRelay)
                       (request (Some "AQID") " +1.5 USDC")) = Normal r /\
    statusCode r = 200.
Proof.
  apply (verify_accepts_positive_decimal
           (opaqueWorld (devnet false) rejectingRelay)
           (request (Some "AQID") " +1.5 USDC") "AQID"
           {| endpoint := "/x"; amount := " +1.5 USDC"; recipient := "Rcp1" |}
           "1.5 USDC" 15 (-1));
    [reflexivity | reflexivity | reflexivity | right; reflexivity
     | reflexivity | lia | lia].
Defined.

(** X17: the guard has no finiteness test.  An amount that, after leading
    white space and an optional plus sign, begins with the word Infinity
    (whatever follows it) is not refused: /verify calls the relay's [sign]
    on the transaction and answers with status 200. *)
Theorem verify_accepts_any_Infinity (w : World) (p : X402PaymentPayload)
  (tx : string) (md : Metadata) (u rest : string) :
  transaction p = Some tx -> nonEmpty tx -> metadata p = Some md ->
  JS.trimStart (amount md) = u \/ JS.trimStart (amount md) = String "+" u ->
  JS.startsWith "Infinity" u = Some rest ->
  relay_calls (trace (verify w p)) = [CallSignTransaction tx] /\
  exists r, completion (verify w p) = Normal r /\ statusCode r = 200.
Proof.
  intros Htx Hne Hmd Ht Hs.
  assert (Hl : JS.unsignedLiteral u = Some JS.LitInfinity)
    by (unfold JS.unsignedLiteral; rewrite Hs; reflexivity).
  assert (Ha : amountRejected (JS.parseFloat (amount md)) = false)
    by (rewrite (parseFloat_unsigned (amount md) u _ Ht Hl); reflexivity).
  split.
  - rewrite (verify_relay_calls w p tx md Htx Hne Hmd), Ha. reflexivity.
  - rewrite (verify_with_metadata w p tx md Htx Hne Hmd).
    unfold completion, afterAmountCheck. cbn [snd]. rewrite Ha.
    destruct (signTransaction (koraClient w) tx);
      eexists; split; reflexivity.
Qed.

Lemma verify_accepts_any_Infinity_witness :
  relay_calls (trace (verify (opaqueWorld (devnet false) acceptingRelay)
                             (request (Some "AQID") "+Infinity and beyond"))) =
    [CallSignTransaction "AQID"] /\
  exists r,
    completion (verify (opaqueWorld (devnet false) acceptingRelay)
                       (request (Some "AQID") "+Infinity and beyond"))
      = Normal r /\
    statusCode r = 200.
Proof.
  apply (verify_accepts_any_Infinity
           (opaqueWorld (devnet false) acceptingRelay)
           (request (Some "AQID") "+Infinity and beyond") "AQID"
           {| endpoint := "/x"; amount := "+Infinity and beyond";
              recipient := "Rcp1" |}
           "Infinity and beyond" " and beyond");
    [reflexivity | reflexivity | reflexivity | right; reflexivity
     | reflexivity].
Defined.
